(** * emrysminer: the GPU monitoring loop [cmd/monitorGPU.go]

    A shallow embedding of [monitorGPU] and the properties of its
    device selection, device initialisation, per-device collection pass
    and sampling loop.

    The function talks to three collaborators that live outside the
    package: the NVML binding [gonvml], the configuration store [viper]
    and the Go runtime ([time], [context], [log]).  Their answers are
    not known statically, so the embedding threads an abstract [World]
    through every call and records each interaction, with the answer
    that came back, in a trace of events. *)

From Stdlib Require Import ZArith List String Ascii Bool Lia.
Import ListNotations.
Open Scope string_scope.
Open Scope list_scope.
Open Scope Z_scope.

Set Implicit Arguments.

(** ** Machine integers *)

(** Go's [uint] and [uint64] on the 64-bit hosts NVML runs on, and [int],
    [int64].  Values are kept in [Z]; conversions write the wrap-around
    out. *)
Definition uint := Z.
Definition uint64 := Z.
Definition int64 := Z.

Definition uintModulus : Z := 2 ^ 64.

(** [int(x)] for [x : uint]: reinterpretation in two's complement. *)
Definition int_of_uint (x : uint) : Z :=
  let x := x mod uintModulus in
  if x <? 2 ^ 63 then x else x - uintModulus.

(** [uint(i)] for [i : int] (and [uint(u)] for [u : uint64]). *)
Definition uint_of_int (i : Z) : uint := i mod uintModulus.

(** [time.Duration], in nanoseconds. *)
Definition Duration := Z.
Definition Second : Duration := 1000000000.

(** ** Errors *)

Inductive numErr := ErrSyntax | ErrRange.

(** An [error] value: what NVML reports (its message), or the
    [*strconv.NumError] of a failed conversion. *)
Inductive error :=
| NvmlError (msg : string)
| NumError (func num : string) (err : numErr).

(** ** [strconv.ParseUint(s, 10, 64)] *)

Module strconv.

Definition maxUint64 : Z := 2 ^ 64 - 1.

(** The smallest number such that [cutoff * 10 > maxUint64]. *)
Definition cutoff : Z := maxUint64 / 10 + 1.

Definition isDigit (c : ascii) : bool :=
  let b := Z.of_N (N_of_ascii c) in (48 <=? b) && (b <=? 57).

Definition digit (c : ascii) : Z := Z.of_N (N_of_ascii c) - 48.

(** The scanning loop of [ParseUint] for base 10 and bit size 64, with
    the accumulator [n].  A letter is a digit of a larger base and an
    underscore is only legal with base 0, so every byte that is not a
    decimal digit is a syntax error. *)
Fixpoint scan (s0 s : string) (n : uint64) : uint64 * option error :=
  match s with
  | EmptyString => (n, None)
  | String c rest =>
      if isDigit c then
        if n >=? cutoff then (maxUint64, Some (NumError "ParseUint" s0 ErrRange))
        else
          let n := n * 10 in
          let n1 := (n + digit c) mod 2 ^ 64 in
          if (n1 <? n) || (n1 >? maxUint64)
          then (maxUint64, Some (NumError "ParseUint" s0 ErrRange))
          else scan s0 rest n1
      else (0, Some (NumError "ParseUint" s0 ErrSyntax))
  end.

Definition ParseUint (s : string) : uint64 * option error :=
  match s with
  | EmptyString => (0, Some (NumError "ParseUint" s ErrSyntax))
  | _ => scan s s 0
  end.

End strconv.

(** ** The snapshot *)

Record GPUSnapshot := {
  TimeStamp : int64;
  MinorNumber : uint;
  UUID : string;
  Name : string;
  Brand : uint;
  PersistenceMode : uint;
  ComputeMode : uint;
  PerformanceState : uint;
  AvgGPUUtilization : uint;
  AvgPowerUsage : uint;
  TotalMemory : uint64;
  UsedMemory : uint64;
  GrClock : uint;
  SMClock : uint;
  MemClock : uint;
  GrMaxClock : uint;
  SMMaxClock : uint;
  MemMaxClock : uint;
  PcieTxThroughput : uint;
  PcieRxThroughput : uint;
  PcieGeneration : uint;
  PcieWidth : uint;
  PcieMaxGeneration : uint;
  PcieMaxWidth : uint;
  Temperature : uint;
  FanSpeed : uint
}.

(** [GPUSnapshot{}]: every field at its zero value. *)
Definition zeroSnapshot : GPUSnapshot :=
  Build_GPUSnapshot 0 0 "" "" 0 0 0 0 0 0 0 0 0 0 0 0 0 0 0 0 0 0 0 0 0 0.

(** Field assignment [g.F = v], one setter per field. *)
Definition set_TimeStamp (v : int64) (g : GPUSnapshot) : GPUSnapshot :=
  let '(Build_GPUSnapshot _ a1 a2 a3 a4 a5 a6 a7 a8 a9 b0 b1 b2 b3 b4 b5 b6 b7 b8 b9 c0 c1 c2 c3 c4 c5) := g in
  Build_GPUSnapshot v a1 a2 a3 a4 a5 a6 a7 a8 a9 b0 b1 b2 b3 b4 b5 b6 b7 b8 b9 c0 c1 c2 c3 c4 c5.
Definition set_MinorNumber (v : uint) (g : GPUSnapshot) : GPUSnapshot :=
  let '(Build_GPUSnapshot a0 _ a2 a3 a4 a5 a6 a7 a8 a9 b0 b1 b2 b3 b4 b5 b6 b7 b8 b9 c0 c1 c2 c3 c4 c5) := g in
  Build_GPUSnapshot a0 v a2 a3 a4 a5 a6 a7 a8 a9 b0 b1 b2 b3 b4 b5 b6 b7 b8 b9 c0 c1 c2 c3 c4 c5.
Definition set_UUID (v : string) (g : GPUSnapshot) : GPUSnapshot :=
  let '(Build_GPUSnapshot a0 a1 _ a3 a4 a5 a6 a7 a8 a9 b0 b1 b2 b3 b4 b5 b6 b7 b8 b9 c0 c1 c2 c3 c4 c5) := g in
  Build_GPUSnapshot a0 a1 v a3 a4 a5 a6 a7 a8 a9 b0 b1 b2 b3 b4 b5 b6 b7 b8 b9 c0 c1 c2 c3 c4 c5.
Definition set_Name (v : string) (g : GPUSnapshot) : GPUSnapshot :=
  let '(Build_GPUSnapshot a0 a1 a2 _ a4 a5 a6 a7 a8 a9 b0 b1 b2 b3 b4 b5 b6 b7 b8 b9 c0 c1 c2 c3 c4 c5) := g in
  Build_GPUSnapshot a0 a1 a2 v a4 a5 a6 a7 a8 a9 b0 b1 b2 b3 b4 b5 b6 b7 b8 b9 c0 c1 c2 c3 c4 c5.
Definition set_Brand (v : uint) (g : GPUSnapshot) : GPUSnapshot :=
  let '(Build_GPUSnapshot a0 a1 a2 a3 _ a5 a6 a7 a8 a9 b0 b1 b2 b3 b4 b5 b6 b7 b8 b9 c0 c1 c2 c3 c4 c5) := g in
  Build_GPUSnapshot a0 a1 a2 a3 v a5 a6 a7 a8 a9 b0 b1 b2 b3 b4 b5 b6 b7 b8 b9 c0 c1 c2 c3 c4 c5.
Definition set_PersistenceMode (v : uint) (g : GPUSnapshot) : GPUSnapshot :=
  let '(Build_GPUSnapshot a0 a1 a2 a3 a4 _ a6 a7 a8 a9 b0 b1 b2 b3 b4 b5 b6 b7 b8 b9 c0 c1 c2 c3 c4 c5) := g in
  Build_GPUSnapshot a0 a1 a2 a3 a4 v a6 a7 a8 a9 b0 b1 b2 b3 b4 b5 b6 b7 b8 b9 c0 c1 c2 c3 c4 c5.
Definition set_ComputeMode (v : uint) (g : GPUSnapshot) : GPUSnapshot :=
  let '(Build_GPUSnapshot a0 a1 a2 a3 a4 a5 _ a7 a8 a9 b0 b1 b2 b3 b4 b5 b6 b7 b8 b9 c0 c1 c2 c3 c4 c5) := g in
  Build_GPUSnapshot a0 a1 a2 a3 a4 a5 v a7 a8 a9 b0 b1 b2 b3 b4 b5 b6 b7 b8 b9 c0 c1 c2 c3 c4 c5.
Definition set_PerformanceState (v : uint) (g : GPUSnapshot) : GPUSnapshot :=
  let '(Build_GPUSnapshot a0 a1 a2 a3 a4 a5 a6 _ a8 a9 b0 b1 b2 b3 b4 b5 b6 b7 b8 b9 c0 c1 c2 c3 c4 c5) := g in
  Build_GPUSnapshot a0 a1 a2 a3 a4 a5 a6 v a8 a9 b0 b1 b2 b3 b4 b5 b6 b7 b8 b9 c0 c1 c2 c3 c4 c5.
Definition set_AvgGPUUtilization (v : uint) (g : GPUSnapshot) : GPUSnapshot :=
  let '(Build_GPUSnapshot a0 a1 a2 a3 a4 a5 a6 a7 _ a9 b0 b1 b2 b3 b4 b5 b6 b7 b8 b9 c0 c1 c2 c3 c4 c5) := g in
  Build_GPUSnapshot a0 a1 a2 a3 a4 a5 a6 a7 v a9 b0 b1 b2 b3 b4 b5 b6 b7 b8 b9 c0 c1 c2 c3 c4 c5.
Definition set_AvgPowerUsage (v : uint) (g : GPUSnapshot) : GPUSnapshot :=
  let '(Build_GPUSnapshot a0 a1 a2 a3 a4 a5 a6 a7 a8 _ b0 b1 b2 b3 b4 b5 b6 b7 b8 b9 c0 c1 c2 c3 c4 c5) := g in
  Build_GPUSnapshot a0 a1 a2 a3 a4 a5 a6 a7 a8 v b0 b1 b2 b3 b4 b5 b6 b7 b8 b9 c0 c1 c2 c3 c4 c5.
Definition set_TotalMemory (v : uint64) (g : GPUSnapshot) : GPUSnapshot :=
  let '(Build_GPUSnapshot a0 a1 a2 a3 a4 a5 a6 a7 a8 a9 _ b1 b2 b3 b4 b5 b6 b7 b8 b9 c0 c1 c2 c3 c4 c5) := g in
  Build_GPUSnapshot a0 a1 a2 a3 a4 a5 a6 a7 a8 a9 v b1 b2 b3 b4 b5 b6 b7 b8 b9 c0 c1 c2 c3 c4 c5.
Definition set_UsedMemory (v : uint64) (g : GPUSnapshot) : GPUSnapshot :=
  let '(Build_GPUSnapshot a0 a1 a2 a3 a4 a5 a6 a7 a8 a9 b0 _ b2 b3 b4 b5 b6 b7 b8 b9 c0 c1 c2 c3 c4 c5) := g in
  Build_GPUSnapshot a0 a1 a2 a3 a4 a5 a6 a7 a8 a9 b0 v b2 b3 b4 b5 b6 b7 b8 b9 c0 c1 c2 c3 c4 c5.
Definition set_GrClock (v : uint) (g : GPUSnapshot) : GPUSnapshot :=
  let '(Build_GPUSnapshot a0 a1 a2 a3 a4 a5 a6 a7 a8 a9 b0 b1 _ b3 b4 b5 b6 b7 b8 b9 c0 c1 c2 c3 c4 c5) := g in
  Build_GPUSnapshot a0 a1 a2 a3 a4 a5 a6 a7 a8 a9 b0 b1 v b3 b4 b5 b6 b7 b8 b9 c0 c1 c2 c3 c4 c5.
Definition set_SMClock (v : uint) (g : GPUSnapshot) : GPUSnapshot :=
  let '(Build_GPUSnapshot a0 a1 a2 a3 a4 a5 a6 a7 a8 a9 b0 b1 b2 _ b4 b5 b6 b7 b8 b9 c0 c1 c2 c3 c4 c5) := g in
  Build_GPUSnapshot a0 a1 a2 a3 a4 a5 a6 a7 a8 a9 b0 b1 b2 v b4 b5 b6 b7 b8 b9 c0 c1 c2 c3 c4 c5.
Definition set_MemClock (v : uint) (g : GPUSnapshot) : GPUSnapshot :=
  let '(Build_GPUSnapshot a0 a1 a2 a3 a4 a5 a6 a7 a8 a9 b0 b1 b2 b3 _ b5 b6 b7 b8 b9 c0 c1 c2 c3 c4 c5) := g in
  Build_GPUSnapshot a0 a1 a2 a3 a4 a5 a6 a7 a8 a9 b0 b1 b2 b3 v b5 b6 b7 b8 b9 c0 c1 c2 c3 c4 c5.
Definition set_GrMaxClock (v : uint) (g : GPUSnapshot) : GPUSnapshot :=
  let '(Build_GPUSnapshot a0 a1 a2 a3 a4 a5 a6 a7 a8 a9 b0 b1 b2 b3 b4 _ b6 b7 b8 b9 c0 c1 c2 c3 c4 c5) := g in
  Build_GPUSnapshot a0 a1 a2 a3 a4 a5 a6 a7 a8 a9 b0 b1 b2 b3 b4 v b6 b7 b8 b9 c0 c1 c2 c3 c4 c5.
Definition set_SMMaxClock (v : uint) (g : GPUSnapshot) : GPUSnapshot :=
  let '(Build_GPUSnapshot a0 a1 a2 a3 a4 a5 a6 a7 a8 a9 b0 b1 b2 b3 b4 b5 _ b7 b8 b9 c0 c1 c2 c3 c4 c5) := g in
  Build_GPUSnapshot a0 a1 a2 a3 a4 a5 a6 a7 a8 a9 b0 b1 b2 b3 b4 b5 v b7 b8 b9 c0 c1 c2 c3 c4 c5.
Definition set_MemMaxClock (v : uint) (g : GPUSnapshot) : GPUSnapshot :=
  let '(Build_GPUSnapshot a0 a1 a2 a3 a4 a5 a6 a7 a8 a9 b0 b1 b2 b3 b4 b5 b6 _ b8 b9 c0 c1 c2 c3 c4 c5) := g in
  Build_GPUSnapshot a0 a1 a2 a3 a4 a5 a6 a7 a8 a9 b0 b1 b2 b3 b4 b5 b6 v b8 b9 c0 c1 c2 c3 c4 c5.
Definition set_PcieTxThroughput (v : uint) (g : GPUSnapshot) : GPUSnapshot :=
  let '(Build_GPUSnapshot a0 a1 a2 a3 a4 a5 a6 a7 a8 a9 b0 b1 b2 b3 b4 b5 b6 b7 _ b9 c0 c1 c2 c3 c4 c5) := g in
  Build_GPUSnapshot a0 a1 a2 a3 a4 a5 a6 a7 a8 a9 b0 b1 b2 b3 b4 b5 b6 b7 v b9 c0 c1 c2 c3 c4 c5.
Definition set_PcieRxThroughput (v : uint) (g : GPUSnapshot) : GPUSnapshot :=
  let '(Build_GPUSnapshot a0 a1 a2 a3 a4 a5 a6 a7 a8 a9 b0 b1 b2 b3 b4 b5 b6 b7 b8 _ c0 c1 c2 c3 c4 c5) := g in
  Build_GPUSnapshot a0 a1 a2 a3 a4 a5 a6 a7 a8 a9 b0 b1 b2 b3 b4 b5 b6 b7 b8 v c0 c1 c2 c3 c4 c5.
Definition set_PcieGeneration (v : uint) (g : GPUSnapshot) : GPUSnapshot :=
  let '(Build_GPUSnapshot a0 a1 a2 a3 a4 a5 a6 a7 a8 a9 b0 b1 b2 b3 b4 b5 b6 b7 b8 b9 _ c1 c2 c3 c4 c5) := g in
  Build_GPUSnapshot a0 a1 a2 a3 a4 a5 a6 a7 a8 a9 b0 b1 b2 b3 b4 b5 b6 b7 b8 b9 v c1 c2 c3 c4 c5.
Definition set_PcieWidth (v : uint) (g : GPUSnapshot) : GPUSnapshot :=
  let '(Build_GPUSnapshot a0 a1 a2 a3 a4 a5 a6 a7 a8 a9 b0 b1 b2 b3 b4 b5 b6 b7 b8 b9 c0 _ c2 c3 c4 c5) := g in
  Build_GPUSnapshot a0 a1 a2 a3 a4 a5 a6 a7 a8 a9 b0 b1 b2 b3 b4 b5 b6 b7 b8 b9 c0 v c2 c3 c4 c5.
Definition set_PcieMaxGeneration (v : uint) (g : GPUSnapshot) : GPUSnapshot :=
  let '(Build_GPUSnapshot a0 a1 a2 a3 a4 a5 a6 a7 a8 a9 b0 b1 b2 b3 b4 b5 b6 b7 b8 b9 c0 c1 _ c3 c4 c5) := g in
  Build_GPUSnapshot a0 a1 a2 a3 a4 a5 a6 a7 a8 a9 b0 b1 b2 b3 b4 b5 b6 b7 b8 b9 c0 c1 v c3 c4 c5.
Definition set_PcieMaxWidth (v : uint) (g : GPUSnapshot) : GPUSnapshot :=
  let '(Build_GPUSnapshot a0 a1 a2 a3 a4 a5 a6 a7 a8 a9 b0 b1 b2 b3 b4 b5 b6 b7 b8 b9 c0 c1 c2 _ c4 c5) := g in
  Build_GPUSnapshot a0 a1 a2 a3 a4 a5 a6 a7 a8 a9 b0 b1 b2 b3 b4 b5 b6 b7 b8 b9 c0 c1 c2 v c4 c5.
Definition set_Temperature (v : uint) (g : GPUSnapshot) : GPUSnapshot :=
  let '(Build_GPUSnapshot a0 a1 a2 a3 a4 a5 a6 a7 a8 a9 b0 b1 b2 b3 b4 b5 b6 b7 b8 b9 c0 c1 c2 c3 _ c5) := g in
  Build_GPUSnapshot a0 a1 a2 a3 a4 a5 a6 a7 a8 a9 b0 b1 b2 b3 b4 b5 b6 b7 b8 b9 c0 c1 c2 c3 v c5.
Definition set_FanSpeed (v : uint) (g : GPUSnapshot) : GPUSnapshot :=
  let '(Build_GPUSnapshot a0 a1 a2 a3 a4 a5 a6 a7 a8 a9 b0 b1 b2 b3 b4 b5 b6 b7 b8 b9 c0 c1 c2 c3 c4 _) := g in
  Build_GPUSnapshot a0 a1 a2 a3 a4 a5 a6 a7 a8 a9 b0 b1 b2 b3 b4 b5 b6 b7 b8 b9 c0 c1 c2 c3 c4 v.

(** ** Constants *)

Definition gpuPeriod : Duration := 10 * Second.
Definition nvmlFeatureEnabled : uint := 1.
Definition nvmlComputeExclusiveProcess : uint := 3.

(** ** The NVML binding *)

Module gonvml.

(** [gonvml.Device]: a wrapper around the C device handle. *)
Record Device := { dev : Z }.

(** The accessors of a [Device], grouped by signature.
    [func (d Device) M() (uint, error)]: *)
Inductive uintRead :=
| MinorNumber | Brand | PersistenceMode | ComputeMode | PerformanceState
| GrClock | SMClock | MemClock | GrMaxClock | SMMaxClock | MemMaxClock
| PcieTxThroughput | PcieRxThroughput
| PcieGeneration | PcieWidth | PcieMaxGeneration | PcieMaxWidth
| Temperature | FanSpeed.

(** [func (d Device) M() (string, error)]: *)
Inductive stringRead := UUID | Name.

(** [func (d Device) M(since time.Duration) (uint, error)]: *)
Inductive averageRead := AverageGPUUtilization | AveragePowerUsage.

(** The package as the program sees it.  Every function answers with
    Go's pair of a value and an error ([None] is [nil]) and moves the
    world on; nothing is assumed about the value that comes with an
    error. *)
Record Provider (World : Type) := {
  Initialize : World -> option error * World;
  Shutdown : World -> option error * World;
  SystemDriverVersion : World -> (string * option error) * World;
  DeviceCount : World -> (uint * option error) * World;
  DeviceHandleByIndex : uint -> World -> (Device * option error) * World;
  SetPersistenceMode : Device -> uint -> World -> option error * World;
  SetComputeMode : Device -> uint -> World -> option error * World;
  readUint : uintRead -> Device -> World -> (uint * option error) * World;
  readString : stringRead -> Device -> World -> (string * option error) * World;
  readAverage : averageRead -> Device -> Duration -> World -> (uint * option error) * World;
  MemoryInfo : Device -> World -> ((uint64 * uint64) * option error) * World
}.

End gonvml.

(** ** The environment *)

(** Everything outside the package: the NVML binding, the [devices]
    setting read through viper, the wall clock, and the [select] that
    ends a tick, whose answer is [true] when the case [<-ctx.Done()] is
    the one taken and [false] when the timer fires. *)
Record Env (World : Type) := {
  nvml : gonvml.Provider World;
  GetStringSlice : string -> list string;
  NowUnix : World -> int64 * World;
  selectDone : Duration -> World -> bool * World
}.

(** ** Events *)

(** An argument of [log.Printf]. *)
Inductive arg :=
| AUint (u : uint)
| AStr (s : string)
| AErr (e : error)
| ASnapshot (g : GPUSnapshot).

(** One interaction with the environment, together with what came back. *)
Inductive event :=
| CallInitialize (err : option error)
| CallShutdown (err : option error)
| CallSystemDriverVersion (v : string) (err : option error)
| CallDeviceCount (n : uint) (err : option error)
| CallDeviceHandleByIndex (i : uint) (d : gonvml.Device) (err : option error)
| CallSetPersistenceMode (d : gonvml.Device) (mode : uint) (err : option error)
| CallSetComputeMode (d : gonvml.Device) (mode : uint) (err : option error)
| CallUint (m : gonvml.uintRead) (d : gonvml.Device) (v : uint) (err : option error)
| CallString (m : gonvml.stringRead) (d : gonvml.Device) (v : string) (err : option error)
| CallAverage (m : gonvml.averageRead) (d : gonvml.Device) (since : Duration)
              (v : uint) (err : option error)
| CallMemoryInfo (d : gonvml.Device) (total used : uint64) (err : option error)
| TimeNow (unix : int64)
| Select (timer : Duration) (done : bool)
| LogPrintf (format : string) (args : list arg)
| CheckErr (e : error).

Definition trace := list event.

(** How a run of [monitorGPU] stands: it returned, it panicked with an
    error, or it is still in its loop. *)
Inductive outcome :=
| Returned
| Panicked (e : error)
| Running.

(** A step that may panic. *)
Inductive result (A : Type) :=
| Ok (a : A)
| Panic (e : error).
Arguments Ok {A} a.
Arguments Panic {A} e.

(** ** The program *)

Section Program.

Variable World : Type.
Variable env : Env World.

(** A computation answers, says what it did, and leaves a world. *)
Definition M (A : Type) : Type := World -> A * trace * World.

Definition ret {A} (a : A) : M A := fun w => (a, [], w).

Definition bind {A B} (m : M A) (k : A -> M B) : M B :=
  fun w =>
    let '(a, t1, w1) := m w in
    let '(b, t2, w2) := k a w1 in
    (b, t1 ++ t2, w2).

Notation "x <- m ;; k" := (bind m (fun x => k))
  (at level 61, m at next level, right associativity).
Notation "' p <- m ;; k" := (bind m (fun x => let 'p := x in k))
  (at level 61, p pattern, m at next level, right associativity).
Notation "m ;;; k" := (bind m (fun _ => k))
  (at level 61, right associativity).

(** An environment call, recorded with its answer. *)
Definition call {A} (f : World -> A * World) (ev : A -> event) : M A :=
  fun w => let '(a, w') := f w in (a, [ev a], w').

Definition Initialize : M (option error) :=
  call (gonvml.Initialize (nvml env)) CallInitialize.
Definition Shutdown : M (option error) :=
  call (gonvml.Shutdown (nvml env)) CallShutdown.
Definition SystemDriverVersion : M (string * option error) :=
  call (gonvml.SystemDriverVersion (nvml env))
       (fun r => CallSystemDriverVersion (fst r) (snd r)).
Definition DeviceCount : M (uint * option error) :=
  call (gonvml.DeviceCount (nvml env)) (fun r => CallDeviceCount (fst r) (snd r)).
Definition DeviceHandleByIndex (i : uint) : M (gonvml.Device * option error) :=
  call (gonvml.DeviceHandleByIndex (nvml env) i)
       (fun r => CallDeviceHandleByIndex i (fst r) (snd r)).
Definition SetPersistenceMode (d : gonvml.Device) (mode : uint) : M (option error) :=
  call (gonvml.SetPersistenceMode (nvml env) d mode) (CallSetPersistenceMode d mode).
Definition SetComputeMode (d : gonvml.Device) (mode : uint) : M (option error) :=
  call (gonvml.SetComputeMode (nvml env) d mode) (CallSetComputeMode d mode).
Definition readUint (m : gonvml.uintRead) (d : gonvml.Device) : M (uint * option error) :=
  call (gonvml.readUint (nvml env) m d) (fun r => CallUint m d (fst r) (snd r)).
Definition readString (m : gonvml.stringRead) (d : gonvml.Device)
  : M (string * option error) :=
  call (gonvml.readString (nvml env) m d) (fun r => CallString m d (fst r) (snd r)).
Definition readAverage (m : gonvml.averageRead) (d : gonvml.Device) (since : Duration)
  : M (uint * option error) :=
  call (gonvml.readAverage (nvml env) m d since)
       (fun r => CallAverage m d since (fst r) (snd r)).
Definition MemoryInfo (d : gonvml.Device) : M ((uint64 * uint64) * option error) :=
  call (gonvml.MemoryInfo (nvml env) d)
       (fun r => CallMemoryInfo d (fst (fst r)) (snd (fst r)) (snd r)).
Definition timeNowUnix : M int64 := call (NowUnix env) TimeNow.
Definition selectCtxDone (timer : Duration) : M bool :=
  call (selectDone env timer) (Select timer).

Definition logPrintf (format : string) (args : list arg) : M unit :=
  fun w => (tt, [LogPrintf format args], w).

(** [if err != nil { body }]. *)
Definition whenErr (err : option error) (body : error -> M unit) : M unit :=
  match err with
  | Some e => body e
  | None => ret tt
  end.

(** [check.Err(f)] of the emrys helper package: runs [f] and reports the
    error it returns, if any. *)
Definition check_Err (f : M (option error)) : M unit :=
  err <- f ;;
  whenErr err (fun e w => (tt, [CheckErr e], w)).

(** *** Device selection (lines 64-86) *)

(** [for i := 0; i < int(numDevices); i++ { devices = append(devices, uint(i)) }] *)
Fixpoint countLoop (fuel : nat) (i bound : Z) (devices : list uint) : list uint :=
  match fuel with
  | O => devices
  | S fuel =>
      if i <? bound
      then countLoop fuel (i + 1) bound (devices ++ [uint_of_int i])
      else devices
  end.

(** [for _, s := range devicesStr { ... }] *)
Fixpoint parseLoop (devicesStr : list string) (devices : list uint)
  : M (result (list uint)) :=
  match devicesStr with
  | [] => ret (Ok devices)
  | s :: rest =>
      let '(u, err) := strconv.ParseUint s in
      match err with
      | Some e =>
          logPrintf "Invalid devices entry %s: %v" [AStr s; AErr e] ;;;
          ret (Panic e)
      | None => parseLoop rest (devices ++ [uint_of_int u])
      end
  end.

Definition selectDevices : M (result (list uint)) :=
  let devices : list uint := [] in
  let devicesStr := GetStringSlice env "devices" in
  if (List.length devicesStr =? 0)%nat then
    '(numDevices, err) <- DeviceCount ;;
    match err with
    | Some e =>
        logPrintf "Error counting nvidia devices: %v" [AErr e] ;;;
        ret (Panic e)
    | None =>
        let bound := int_of_uint numDevices in
        ret (Ok (countLoop (Z.to_nat bound) 0 bound devices))
    end
  else parseLoop devicesStr devices.

(** *** Device initialisation (lines 88-105) *)

Fixpoint initialize (devices : list uint) : M (result unit) :=
  match devices with
  | [] => ret (Ok tt)
  | i :: rest =>
      '(dev, err) <- DeviceHandleByIndex i ;;
      match err with
      | Some e =>
          logPrintf "DeviceHandleByIndex(%d) error: %v" [AUint i; AErr e] ;;;
          ret (Panic e)
      | None =>
          err <- SetPersistenceMode dev nvmlFeatureEnabled ;;
          match err with
          | Some e =>
              logPrintf "SetPersistenceMode() error: %v" [AErr e] ;;;
              ret (Panic e)
          | None =>
              err <- SetComputeMode dev nvmlComputeExclusiveProcess ;;
              match err with
              | Some e =>
                  logPrintf "SetComputeMode() error: %v" [AErr e] ;;;
                  ret (Panic e)
              | None => initialize rest
              end
          end
      end
  end.

(** *** One device pass (lines 110-271) *)

(** [v, err := read; if err != nil { log.Printf(format, args...); continue }]
    followed by the rest of the pass, [k v].  [continue] leaves the
    pass with nothing. *)
Definition failFast {A B} (read : M (A * option error)) (format : string)
    (args : error -> list arg) (k : A -> M (option B)) : M (option B) :=
  '(v, err) <- read ;;
  match err with
  | Some e => logPrintf format (args e) ;;; ret None
  | None => k v
  end.

(** [v, err := read; if err != nil { log.Printf(format, err) }]: the value
    that came back is used whether or not there was an error. *)
Definition failSoft {A} (read : M (A * option error)) (format : string) : M A :=
  '(v, err) <- read ;;
  whenErr err (fun e => logPrintf format [AErr e]) ;;;
  ret v.

Definition errArg (e : error) : list arg := [AErr e].

(** Lines 110-166: time stamp, handle and the seven identity reads. *)
Definition identity (i : uint) : M (option (gonvml.Device * GPUSnapshot)) :=
  let g := zeroSnapshot in
  ts <- timeNowUnix ;;
  let g := set_TimeStamp ts g in
  failFast (DeviceHandleByIndex i) "DeviceHandleByIndex(%d) error: %v"
           (fun e => [AUint i; AErr e]) (fun dev =>
  failFast (readUint gonvml.MinorNumber dev) "MinorNumber() error: %v" errArg
           (fun minorNumber =>
  let g := set_MinorNumber minorNumber g in
  failFast (readString gonvml.UUID dev) "UUID() error: %v" errArg (fun uuid =>
  let g := set_UUID uuid g in
  failFast (readString gonvml.Name dev) "Name() error: %v" errArg (fun name =>
  let g := set_Name name g in
  failFast (readUint gonvml.Brand dev) "Brand() error: %v" errArg (fun brand =>
  let g := set_Brand brand g in
  failFast (readUint gonvml.PersistenceMode dev) "PersistenceMode() error: %v" errArg
           (fun persistenceMode =>
  let g := set_PersistenceMode persistenceMode g in
  failFast (readUint gonvml.ComputeMode dev) "ComputeMode() error: %v" errArg
           (fun computeMode =>
  let g := set_ComputeMode computeMode g in
  failFast (readUint gonvml.PerformanceState dev) "PerformanceState() error: %v" errArg
           (fun performanceState =>
  let g := set_PerformanceState performanceState g in
  ret (Some (dev, g)))))))))).

(** Lines 168-269: the dynamic reads. *)
Definition dynamic (dev : gonvml.Device) (g : GPUSnapshot) : M GPUSnapshot :=
  gpuUtilization <- failSoft (readAverage gonvml.AverageGPUUtilization dev gpuPeriod)
                             "UtilizationRates() error: %v" ;;
  let g := set_AvgGPUUtilization gpuUtilization g in
  powerUsage <- failSoft (readAverage gonvml.AveragePowerUsage dev gpuPeriod)
                         "PowerUsage() error: %v" ;;
  let g := set_AvgPowerUsage powerUsage g in
  '(totalMemory, usedMemory) <- failSoft (MemoryInfo dev) "MemoryInfo() error: %v" ;;
  let g := set_TotalMemory totalMemory g in
  let g := set_UsedMemory usedMemory g in
  grClock <- failSoft (readUint gonvml.GrClock dev) "GrClock() error: %v" ;;
  let g := set_GrClock grClock g in
  smClock <- failSoft (readUint gonvml.SMClock dev) "SMClock() error: %v" ;;
  let g := set_SMClock smClock g in
  memClock <- failSoft (readUint gonvml.MemClock dev) "MemClock() error: %v" ;;
  let g := set_MemClock memClock g in
  grMaxClock <- failSoft (readUint gonvml.GrMaxClock dev) "GrMaxClock() error: %v" ;;
  let g := set_GrMaxClock grMaxClock g in
  smMaxClock <- failSoft (readUint gonvml.SMMaxClock dev) "SMMaxClock() error: %v" ;;
  let g := set_SMMaxClock smMaxClock g in
  memMaxClock <- failSoft (readUint gonvml.MemMaxClock dev) "MemMaxClock() error: %v" ;;
  let g := set_MemMaxClock memMaxClock g in
  pcieTxThroughput <- failSoft (readUint gonvml.PcieTxThroughput dev)
                               "PcieTxThroughput() error: %v" ;;
  let g := set_PcieTxThroughput pcieTxThroughput g in
  pcieRxThroughput <- failSoft (readUint gonvml.PcieRxThroughput dev)
                               "PcieRxThroughput() error: %v" ;;
  let g := set_PcieRxThroughput pcieRxThroughput g in
  pcieGen <- failSoft (readUint gonvml.PcieGeneration dev) "PcieGeneration() error: %v" ;;
  let g := set_PcieGeneration pcieGen g in
  pcieWidth <- failSoft (readUint gonvml.PcieWidth dev) "PcieGeneration() error: %v" ;;
  let g := set_PcieWidth pcieWidth g in
  pcieMaxGeneration <- failSoft (readUint gonvml.PcieMaxGeneration dev)
                                "PcieGeneration() error: %v" ;;
  let g := set_PcieMaxGeneration pcieMaxGeneration g in
  pcieMaxWidth <- failSoft (readUint gonvml.PcieMaxWidth dev)
                           "PcieGeneration() error: %v" ;;
  let g := set_PcieMaxWidth pcieMaxWidth g in
  temperature <- failSoft (readUint gonvml.Temperature dev) "Temperature() error: %v" ;;
  let g := set_Temperature temperature g in
  fanSpeed <- failSoft (readUint gonvml.FanSpeed dev) "FanSpeed() error: %v" ;;
  let g := set_FanSpeed fanSpeed g in
  ret g.

(** The body of [for _, i := range devices], once. *)
Definition devicePass (i : uint) : M unit :=
  r <- identity i ;;
  match r with
  | None => ret tt
  | Some (dev, g) =>
      g <- dynamic dev g ;;
      logPrintf "GPU Snapshot: %+v" [ASnapshot g]
  end.

(** *** The sampling loop (lines 108-278) *)

(** [for _, i := range devices { ... }], one tick. *)
Fixpoint tick (devices : list uint) : M unit :=
  match devices with
  | [] => ret tt
  | i :: rest => devicePass i ;;; tick rest
  end.

(** [for { tick; select { case <-ctx.Done(): return; case <-time.After(gpuPeriod): } }],
    for at most [fuel] ticks. *)
Fixpoint monitor (fuel : nat) (devices : list uint) : M outcome :=
  match fuel with
  | O => ret Running
  | S fuel =>
      tick devices ;;;
      done <- selectCtxDone gpuPeriod ;;
      if done then ret Returned else monitor fuel devices
  end.

(** *** [monitorGPU] *)

(** Lines 57-278: what runs under the deferred shutdown. *)
Definition body (fuel : nat) : M outcome :=
  '(driverVersion, err) <- SystemDriverVersion ;;
  match err with
  | Some e =>
      logPrintf "Error finding nvidia driver: %v" [AErr e] ;;;
      ret Returned
  | None =>
      logPrintf "Nvidia driver: %v" [AStr driverVersion] ;;;
      r <- selectDevices ;;
      match r with
      | Panic e => ret (Panicked e)
      | Ok devices =>
          r <- initialize devices ;;
          match r with
          | Panic e => ret (Panicked e)
          | Ok _ => monitor fuel devices
          end
      end
  end.

(** The deferred [check.Err(gonvml.Shutdown)] runs when the body returns
    or panics; while the loop is still running it has not run yet. *)
Definition monitorGPU (fuel : nat) : M outcome :=
  err <- Initialize ;;
  match err with
  | Some e =>
      logPrintf
        "Couldn't initialize gonvml: %v. Make sure NVML is in the shared library search path."
        [AErr e] ;;;
      ret (Panicked e)
  | None =>
      o <- body fuel ;;
      match o with
      | Running => ret Running
      | _ => check_Err Shutdown ;;; ret o
      end
  end.

End Program.

Arguments ret {World A} a _.
Arguments bind {World A B} m k _.
Arguments call {World A} f ev _.
Arguments logPrintf {World} format args _.
Arguments whenErr {World} err body _.
Arguments failFast {World A B} read format args k _.
Arguments failSoft {World A} read format _.

(** ** Reading a trace *)

(** The records handed to the reporting sink: the arguments of the
    [log.Printf("GPU Snapshot: %+v", g)] lines. *)
Definition snapshotOfEvent (ev : event) : list GPUSnapshot :=
  match ev with
  | LogPrintf _ [ASnapshot g] => [g]
  | _ => []
  end.
Definition snapshots (tr : trace) : list GPUSnapshot := flat_map snapshotOfEvent tr.

(** The indices whose handle was resolved, in order. *)
Definition handleOfEvent (ev : event) : list uint :=
  match ev with
  | CallDeviceHandleByIndex i _ _ => [i]
  | _ => []
  end.
Definition handleCalls (tr : trace) : list uint := flat_map handleOfEvent tr.

(** What [if err != nil { log.Printf(format, err) }] writes. *)
Definition errLog (format : string) (err : option error) : trace :=
  match err with
  | Some e => [LogPrintf format [AErr e]]
  | None => []
  end.

Definition valueOf {A W : Type} (r : A * trace * W) : A := fst (fst r).
Definition traceOf {A W : Type} (r : A * trace * W) : trace := snd (fst r).
Definition worldOf {A W : Type} (r : A * trace * W) : W := snd r.

(** The reads that come first in a pass and end it when they fail. *)
Definition isIdentityUint (m : gonvml.uintRead) : bool :=
  match m with
  | gonvml.MinorNumber | gonvml.Brand | gonvml.PersistenceMode
  | gonvml.ComputeMode | gonvml.PerformanceState => true
  | _ => false
  end.

(** A failed handle resolution or a failed identity read. *)
Definition identityFailure (ev : event) : bool :=
  match ev with
  | CallDeviceHandleByIndex _ _ (Some _) => true
  | CallUint m _ _ (Some _) => isIdentityUint m
  | CallString _ _ _ (Some _) => true
  | _ => false
  end.

Definition noIdentityFailure (ev : event) : bool := negb (identityFailure ev).

(** The dynamic reads of a pass, one constructor per signature. *)
Inductive dynamicRead :=
| DynAverage (m : gonvml.averageRead)
| DynMemoryInfo
| DynUint (m : gonvml.uintRead).

Definition isDynamic (r : dynamicRead) : bool :=
  match r with
  | DynUint m => negb (isIdentityUint m)
  | _ => true
  end.

Definition dynamicReadOfEvent (ev : event) : list dynamicRead :=
  match ev with
  | CallAverage m _ _ _ _ => [DynAverage m]
  | CallMemoryInfo _ _ _ _ => [DynMemoryInfo]
  | CallUint m _ _ _ => if isIdentityUint m then [] else [DynUint m]
  | _ => []
  end.
Definition dynamicReads (tr : trace) : list dynamicRead := flat_map dynamicReadOfEvent tr.

(** The dynamic reads in the order of lines 168-269. *)
Definition dynamicOrder : list dynamicRead :=
  [ DynAverage gonvml.AverageGPUUtilization; DynAverage gonvml.AveragePowerUsage;
    DynMemoryInfo;
    DynUint gonvml.GrClock; DynUint gonvml.SMClock; DynUint gonvml.MemClock;
    DynUint gonvml.GrMaxClock; DynUint gonvml.SMMaxClock; DynUint gonvml.MemMaxClock;
    DynUint gonvml.PcieTxThroughput; DynUint gonvml.PcieRxThroughput;
    DynUint gonvml.PcieGeneration; DynUint gonvml.PcieWidth;
    DynUint gonvml.PcieMaxGeneration; DynUint gonvml.PcieMaxWidth;
    DynUint gonvml.Temperature; DynUint gonvml.FanSpeed ].

(** Whether the event is the [select] that ends a tick. *)
Definition isSelect (ev : event) : bool :=
  match ev with
  | Select _ _ => true
  | _ => false
  end.

(** What follows the first [select] that took [<-ctx.Done()]. *)
Fixpoint afterCancel (tr : trace) : trace :=
  match tr with
  | [] => []
  | Select _ true :: rest => rest
  | _ :: rest => afterCancel rest
  end.

(** ** Which read fills which field *)

Definition setUint (m : gonvml.uintRead) : uint -> GPUSnapshot -> GPUSnapshot :=
  match m with
  | gonvml.MinorNumber => set_MinorNumber
  | gonvml.Brand => set_Brand
  | gonvml.PersistenceMode => set_PersistenceMode
  | gonvml.ComputeMode => set_ComputeMode
  | gonvml.PerformanceState => set_PerformanceState
  | gonvml.GrClock => set_GrClock
  | gonvml.SMClock => set_SMClock
  | gonvml.MemClock => set_MemClock
  | gonvml.GrMaxClock => set_GrMaxClock
  | gonvml.SMMaxClock => set_SMMaxClock
  | gonvml.MemMaxClock => set_MemMaxClock
  | gonvml.PcieTxThroughput => set_PcieTxThroughput
  | gonvml.PcieRxThroughput => set_PcieRxThroughput
  | gonvml.PcieGeneration => set_PcieGeneration
  | gonvml.PcieWidth => set_PcieWidth
  | gonvml.PcieMaxGeneration => set_PcieMaxGeneration
  | gonvml.PcieMaxWidth => set_PcieMaxWidth
  | gonvml.Temperature => set_Temperature
  | gonvml.FanSpeed => set_FanSpeed
  end.

Definition setString (m : gonvml.stringRead) : string -> GPUSnapshot -> GPUSnapshot :=
  match m with
  | gonvml.UUID => set_UUID
  | gonvml.Name => set_Name
  end.

Definition setAverage (m : gonvml.averageRead) : uint -> GPUSnapshot -> GPUSnapshot :=
  match m with
  | gonvml.AverageGPUUtilization => set_AvgGPUUtilization
  | gonvml.AveragePowerUsage => set_AvgPowerUsage
  end.

(** The snapshot after the answer of one more call has been stored. *)
Definition recordEvent (g : GPUSnapshot) (ev : event) : GPUSnapshot :=
  match ev with
  | TimeNow unix => set_TimeStamp unix g
  | CallUint m _ v _ => setUint m v g
  | CallString m _ v _ => setString m v g
  | CallAverage m _ _ v _ => setAverage m v g
  | CallMemoryInfo _ total used _ => set_UsedMemory used (set_TotalMemory total g)
  | _ => g
  end.

(** The snapshot whose every field holds what its own read answered in
    [tr], whether or not the answer came with an error, and zero where
    nothing was read. *)
Definition populated (tr : trace) : GPUSnapshot := fold_left recordEvent tr zeroSnapshot.

(** The fields a dynamic read fills, put back to zero. *)
Definition zeroFields (r : dynamicRead) (g : GPUSnapshot) : GPUSnapshot :=
  match r with
  | DynAverage m => setAverage m 0 g
  | DynMemoryInfo => set_UsedMemory 0 (set_TotalMemory 0 g)
  | DynUint m => setUint m 0 g
  end.

(** The format of the line logged when a dynamic read fails. *)
Definition formatOf (r : dynamicRead) : string :=
  match r with
  | DynAverage gonvml.AverageGPUUtilization => "UtilizationRates() error: %v"
  | DynAverage gonvml.AveragePowerUsage => "PowerUsage() error: %v"
  | DynMemoryInfo => "MemoryInfo() error: %v"
  | DynUint gonvml.GrClock => "GrClock() error: %v"
  | DynUint gonvml.SMClock => "SMClock() error: %v"
  | DynUint gonvml.MemClock => "MemClock() error: %v"
  | DynUint gonvml.GrMaxClock => "GrMaxClock() error: %v"
  | DynUint gonvml.SMMaxClock => "SMMaxClock() error: %v"
  | DynUint gonvml.MemMaxClock => "MemMaxClock() error: %v"
  | DynUint gonvml.PcieTxThroughput => "PcieTxThroughput() error: %v"
  | DynUint gonvml.PcieRxThroughput => "PcieRxThroughput() error: %v"
  | DynUint gonvml.PcieGeneration => "PcieGeneration() error: %v"
  | DynUint gonvml.PcieWidth => "PcieGeneration() error: %v"
  | DynUint gonvml.PcieMaxGeneration => "PcieGeneration() error: %v"
  | DynUint gonvml.PcieMaxWidth => "PcieGeneration() error: %v"
  | DynUint gonvml.Temperature => "Temperature() error: %v"
  | DynUint gonvml.FanSpeed => "FanSpeed() error: %v"
  | DynUint _ => ""
  end.

(** The number of fields in which two snapshots differ. *)
Definition differs {A} (eqb : A -> A -> bool) (x y : A) : nat :=
  if eqb x y then 0%nat else 1%nat.
Definition fieldDiffs (g h : GPUSnapshot) : nat :=
  (differs Z.eqb (TimeStamp g) (TimeStamp h)
   + differs Z.eqb (MinorNumber g) (MinorNumber h)
   + differs String.eqb (UUID g) (UUID h)
   + differs String.eqb (Name g) (Name h)
   + differs Z.eqb (Brand g) (Brand h)
   + differs Z.eqb (PersistenceMode g) (PersistenceMode h)
   + differs Z.eqb (ComputeMode g) (ComputeMode h)
   + differs Z.eqb (PerformanceState g) (PerformanceState h)
   + differs Z.eqb (AvgGPUUtilization g) (AvgGPUUtilization h)
   + differs Z.eqb (AvgPowerUsage g) (AvgPowerUsage h)
   + differs Z.eqb (TotalMemory g) (TotalMemory h)
   + differs Z.eqb (UsedMemory g) (UsedMemory h)
   + differs Z.eqb (GrClock g) (GrClock h)
   + differs Z.eqb (SMClock g) (SMClock h)
   + differs Z.eqb (MemClock g) (MemClock h)
   + differs Z.eqb (GrMaxClock g) (GrMaxClock h)
   + differs Z.eqb (SMMaxClock g) (SMMaxClock h)
   + differs Z.eqb (MemMaxClock g) (MemMaxClock h)
   + differs Z.eqb (PcieTxThroughput g) (PcieTxThroughput h)
   + differs Z.eqb (PcieRxThroughput g) (PcieRxThroughput h)
   + differs Z.eqb (PcieGeneration g) (PcieGeneration h)
   + differs Z.eqb (PcieWidth g) (PcieWidth h)
   + differs Z.eqb (PcieMaxGeneration g) (PcieMaxGeneration h)
   + differs Z.eqb (PcieMaxWidth g) (PcieMaxWidth h)
   + differs Z.eqb (Temperature g) (Temperature h)
   + differs Z.eqb (FanSpeed g) (FanSpeed h))%nat.

(** ** Fault injection *)

Scheme Equality for gonvml.uintRead.
Scheme Equality for gonvml.averageRead.

Section Injection.

Variable World : Type.

(** [f] made to fail: it answers [zero] with the error [e], and moves the
    world as [f] does. *)
Definition failing {A} (zero : A) (e : error)
    (f : World -> (A * option error) * World) : World -> (A * option error) * World :=
  fun w => ((zero, Some e), snd (f w)).

Definition withReadUint
    (f : gonvml.uintRead -> gonvml.Device -> World -> (uint * option error) * World)
    (p : gonvml.Provider World) : gonvml.Provider World :=
  {| gonvml.Initialize := gonvml.Initialize p;
     gonvml.Shutdown := gonvml.Shutdown p;
     gonvml.SystemDriverVersion := gonvml.SystemDriverVersion p;
     gonvml.DeviceCount := gonvml.DeviceCount p;
     gonvml.DeviceHandleByIndex := gonvml.DeviceHandleByIndex p;
     gonvml.SetPersistenceMode := gonvml.SetPersistenceMode p;
     gonvml.SetComputeMode := gonvml.SetComputeMode p;
     gonvml.readUint := f;
     gonvml.readString := gonvml.readString p;
     gonvml.readAverage := gonvml.readAverage p;
     gonvml.MemoryInfo := gonvml.MemoryInfo p |}.

Definition withReadString
    (f : gonvml.stringRead -> gonvml.Device -> World -> (string * option error) * World)
    (p : gonvml.Provider World) : gonvml.Provider World :=
  {| gonvml.Initialize := gonvml.Initialize p;
     gonvml.Shutdown := gonvml.Shutdown p;
     gonvml.SystemDriverVersion := gonvml.SystemDriverVersion p;
     gonvml.DeviceCount := gonvml.DeviceCount p;
     gonvml.DeviceHandleByIndex := gonvml.DeviceHandleByIndex p;
     gonvml.SetPersistenceMode := gonvml.SetPersistenceMode p;
     gonvml.SetComputeMode := gonvml.SetComputeMode p;
     gonvml.readUint := gonvml.readUint p;
     gonvml.readString := f;
     gonvml.readAverage := gonvml.readAverage p;
     gonvml.MemoryInfo := gonvml.MemoryInfo p |}.

Definition withReadAverage
    (f : gonvml.averageRead -> gonvml.Device -> Duration -> World ->
         (uint * option error) * World)
    (p : gonvml.Provider World) : gonvml.Provider World :=
  {| gonvml.Initialize := gonvml.Initialize p;
     gonvml.Shutdown := gonvml.Shutdown p;
     gonvml.SystemDriverVersion := gonvml.SystemDriverVersion p;
     gonvml.DeviceCount := gonvml.DeviceCount p;
     gonvml.DeviceHandleByIndex := gonvml.DeviceHandleByIndex p;
     gonvml.SetPersistenceMode := gonvml.SetPersistenceMode p;
     gonvml.SetComputeMode := gonvml.SetComputeMode p;
     gonvml.readUint := gonvml.readUint p;
     gonvml.readString := gonvml.readString p;
     gonvml.readAverage := f;
     gonvml.MemoryInfo := gonvml.MemoryInfo p |}.

Definition withMemoryInfo
    (f : gonvml.Device -> World -> ((uint64 * uint64) * option error) * World)
    (p : gonvml.Provider World) : gonvml.Provider World :=
  {| gonvml.Initialize := gonvml.Initialize p;
     gonvml.Shutdown := gonvml.Shutdown p;
     gonvml.SystemDriverVersion := gonvml.SystemDriverVersion p;
     gonvml.DeviceCount := gonvml.DeviceCount p;
     gonvml.DeviceHandleByIndex := gonvml.DeviceHandleByIndex p;
     gonvml.SetPersistenceMode := gonvml.SetPersistenceMode p;
     gonvml.SetComputeMode := gonvml.SetComputeMode p;
     gonvml.readUint := gonvml.readUint p;
     gonvml.readString := gonvml.readString p;
     gonvml.readAverage := gonvml.readAverage p;
     gonvml.MemoryInfo := f |}.

Definition withSystemDriverVersion
    (f : World -> (string * option error) * World)
    (p : gonvml.Provider World) : gonvml.Provider World :=
  {| gonvml.Initialize := gonvml.Initialize p;
     gonvml.Shutdown := gonvml.Shutdown p;
     gonvml.SystemDriverVersion := f;
     gonvml.DeviceCount := gonvml.DeviceCount p;
     gonvml.DeviceHandleByIndex := gonvml.DeviceHandleByIndex p;
     gonvml.SetPersistenceMode := gonvml.SetPersistenceMode p;
     gonvml.SetComputeMode := gonvml.SetComputeMode p;
     gonvml.readUint := gonvml.readUint p;
     gonvml.readString := gonvml.readString p;
     gonvml.readAverage := gonvml.readAverage p;
     gonvml.MemoryInfo := gonvml.MemoryInfo p |}.

Definition withSetComputeMode
    (f : gonvml.Device -> uint -> World -> option error * World)
    (p : gonvml.Provider World) : gonvml.Provider World :=
  {| gonvml.Initialize := gonvml.Initialize p;
     gonvml.Shutdown := gonvml.Shutdown p;
     gonvml.SystemDriverVersion := gonvml.SystemDriverVersion p;
     gonvml.DeviceCount := gonvml.DeviceCount p;
     gonvml.DeviceHandleByIndex := gonvml.DeviceHandleByIndex p;
     gonvml.SetPersistenceMode := gonvml.SetPersistenceMode p;
     gonvml.SetComputeMode := f;
     gonvml.readUint := gonvml.readUint p;
     gonvml.readString := gonvml.readString p;
     gonvml.readAverage := gonvml.readAverage p;
     gonvml.MemoryInfo := gonvml.MemoryInfo p |}.

Definition withNvml (p : gonvml.Provider World) (env : Env World) : Env World :=
  {| nvml := p;
     GetStringSlice := GetStringSlice env;
     NowUnix := NowUnix env;
     selectDone := selectDone env |}.

(** The provider with the dynamic read [r] failing: [r] answers the zero
    value of its type with the error [e]; every other answer, and the
    way the world moves, is as before. *)
Definition injectFailure (r : dynamicRead) (e : error) (p : gonvml.Provider World)
  : gonvml.Provider World :=
  match r with
  | DynAverage m =>
      withReadAverage
        (fun m' d since =>
           if averageRead_beq m' m
           then failing 0 e (gonvml.readAverage p m' d since)
           else gonvml.readAverage p m' d since) p
  | DynMemoryInfo =>
      withMemoryInfo (fun d => failing (0, 0) e (gonvml.MemoryInfo p d)) p
  | DynUint m =>
      withReadUint
        (fun m' d =>
           if uintRead_beq m' m
           then failing 0 e (gonvml.readUint p m' d)
           else gonvml.readUint p m' d) p
  end.

Definition withFailure (r : dynamicRead) (e : error) (env : Env World) : Env World :=
  withNvml (injectFailure r e (nvml env)) env.

End Injection.

(** ** A scripted environment *)

(** A stand-in for the host, used to run the program on concrete inputs.
    Its world is the number of calls answered so far; the context is
    cancelled once that number reaches [cancelAt]. *)
Module Fake.

Definition World : Type := nat.

Definition sampleUint (m : gonvml.uintRead) : uint :=
  match m with
  | gonvml.MinorNumber => 0
  | gonvml.Brand => 2
  | gonvml.PersistenceMode => 1
  | gonvml.ComputeMode => 3
  | gonvml.PerformanceState => 8
  | gonvml.GrClock => 1506
  | gonvml.SMClock => 1506
  | gonvml.MemClock => 5005
  | gonvml.GrMaxClock => 1911
  | gonvml.SMMaxClock => 1911
  | gonvml.MemMaxClock => 5005
  | gonvml.PcieTxThroughput => 1200
  | gonvml.PcieRxThroughput => 900
  | gonvml.PcieGeneration => 3
  | gonvml.PcieWidth => 16
  | gonvml.PcieMaxGeneration => 3
  | gonvml.PcieMaxWidth => 16
  | gonvml.Temperature => 55
  | gonvml.FanSpeed => 30
  end.

Definition sampleString (m : gonvml.stringRead) : string :=
  match m with
  | gonvml.UUID => "GPU-8f6d2c1e"
  | gonvml.Name => "GeForce GTX 1080"
  end.

Definition sampleAverage (m : gonvml.averageRead) : uint :=
  match m with
  | gonvml.AverageGPUUtilization => 97
  | gonvml.AveragePowerUsage => 180000
  end.

Definition provider : gonvml.Provider World :=
  {| gonvml.Initialize := fun w => (None, S w);
     gonvml.Shutdown := fun w => (None, S w);
     gonvml.SystemDriverVersion := fun w => (("390.48", None), S w);
     gonvml.DeviceCount := fun w => ((2, None), S w);
     gonvml.DeviceHandleByIndex := fun i w => ((gonvml.Build_Device (4096 + i), None), S w);
     gonvml.SetPersistenceMode := fun _ _ w => (None, S w);
     gonvml.SetComputeMode := fun _ _ w => (None, S w);
     gonvml.readUint := fun m _ w => ((sampleUint m, None), S w);
     gonvml.readString := fun m _ w => ((sampleString m, None), S w);
     gonvml.readAverage := fun m _ _ w => ((sampleAverage m, None), S w);
     gonvml.MemoryInfo := fun _ w => (((8192, 4096), None), S w) |}.

Definition ctxDone (cancelAt : nat) (w : World) : bool := (cancelAt <=? w)%nat.

Definition env (flag : list string) (cancelAt : nat) : Env World :=
  {| nvml := provider;
     GetStringSlice := fun key => if String.eqb key "devices" then flag else [];
     NowUnix := fun w => (1700000000 + Z.of_nat w, S w);
     selectDone := fun _ w => (ctxDone cancelAt w, S w) |}.

Definition unknownError : error := NvmlError "Unknown Error".
Definition notSupported : error := NvmlError "Not Supported".

(** The UUID read fails. *)
Definition uuidFails : Env World :=
  withNvml
    (withReadString
       (fun m d w =>
          match m with
          | gonvml.UUID => (("", Some unknownError), S w)
          | _ => gonvml.readString provider m d w
          end) provider)
    (env [] 1000).

(** The temperature read fails and hands back a reading with its error. *)
Definition temperatureFails (reading : uint) : Env World :=
  withNvml
    (withReadUint
       (fun m d w =>
          match m with
          | gonvml.Temperature => ((reading, Some notSupported), S w)
          | _ => gonvml.readUint provider m d w
          end) provider)
    (env [] 1000).

(** The driver-version query fails. *)
Definition driverFails : Env World :=
  withNvml
    (withSystemDriverVersion (fun w => (("", Some unknownError), S w)) provider)
    (env [] 1000).

(** The compute mode of the second device cannot be set. *)
Definition computeModeFails : Env World :=
  withNvml
    (withSetComputeMode
       (fun d _ w =>
          (if gonvml.dev d =? 4097 then Some notSupported else None, S w)) provider)
    (env [] 1000).

(** The snapshot of the first pass over device 0, if there is one. *)
Definition firstSnapshot (e : Env World) : GPUSnapshot :=
  hd zeroSnapshot (snapshots (traceOf (devicePass e 0 0%nat))).

End Fake.

(** ** Kinds of events *)

(** The error a call came back with. *)
Definition callError (ev : event) : option error :=
  match ev with
  | CallInitialize err | CallShutdown err
  | CallSystemDriverVersion _ err | CallDeviceCount _ err
  | CallDeviceHandleByIndex _ _ err
  | CallSetPersistenceMode _ _ err | CallSetComputeMode _ _ err
  | CallUint _ _ _ err | CallString _ _ _ err
  | CallAverage _ _ _ _ err | CallMemoryInfo _ _ _ err => err
  | _ => None
  end.

(** The successful handle resolution and identity reads, and the clock. *)
Definition identityOk (ev : event) : bool :=
  match ev with
  | TimeNow _ => true
  | CallDeviceHandleByIndex _ _ None => true
  | CallUint m _ _ None => isIdentityUint m
  | CallString _ _ _ None => true
  | _ => false
  end.

(** The dynamic reads and the lines logged for those that failed. *)
Definition dynamicEvent (ev : event) : bool :=
  match ev with
  | CallAverage _ _ _ _ _ => true
  | CallMemoryInfo _ _ _ _ => true
  | CallUint m _ _ _ => negb (isIdentityUint m)
  | LogPrintf _ [AErr _] => true
  | _ => false
  end.

(** The averages are asked over the period the loop's timer waits for. *)
Definition windowOk (ev : event) : bool :=
  match ev with
  | CallAverage _ _ since _ _ => since =? gpuPeriod
  | Select timer _ => timer =? gpuPeriod
  | _ => true
  end.

(** A dynamic read that failed, with its error. *)
Definition failedDynamic (ev : event) : option (dynamicRead * error) :=
  match ev with
  | CallAverage m _ _ _ (Some e) => Some (DynAverage m, e)
  | CallMemoryInfo _ _ _ (Some e) => Some (DynMemoryInfo, e)
  | CallUint m _ _ (Some e) => if isIdentityUint m then None else Some (DynUint m, e)
  | _ => None
  end.

(** ** Readings of the specification put to the test *)

(** A failed temperature read leaves [Temperature] at zero in the snapshot
    of its pass. *)
Definition failed_temperature_reads_zero : Prop :=
  forall (World : Type) (env : Env World) (i : uint) (w : World)
         (dev : gonvml.Device) (v : uint) (e : error) (g : GPUSnapshot),
    In (CallUint gonvml.Temperature dev v (Some e)) (traceOf (devicePass env i w)) ->
    In g (snapshots (traceOf (devicePass env i w))) ->
    Temperature g = 0.

(** A dynamic read that fails, answering zero, changes a single field of
    the snapshot of its pass. *)
Definition failed_read_zeroes_single_field : Prop :=
  forall (World : Type) (env : Env World) (i : uint) (w : World)
         (r : dynamicRead) (e : error) (g g' : GPUSnapshot),
    isDynamic r = true ->
    snapshots (traceOf (devicePass env i w)) = [g] ->
    snapshots (traceOf (devicePass (withFailure r e env) i w)) = [g'] ->
    (fieldDiffs g g' <= 1)%nat.

(** ** Shapes of traces, and what the configuration denotes *)

Definition notSelect (ev : event) : bool := negb (isSelect ev).

Definition passBlock (i : uint) (tr : trace) : Prop :=
  handleCalls tr = [i] /\ forallb notSelect tr = true /\
  (List.length (snapshots tr) <= 1)%nat /\
  exists unix rest, tr = TimeNow unix :: rest.

Inductive tickBlock : list uint -> trace -> Prop :=
| tickBlock_nil : tickBlock [] []
| tickBlock_cons i rest p tr :
    passBlock i p -> tickBlock rest tr -> tickBlock (i :: rest) (p ++ tr).

Inductive loopTrace (devices : list uint) : outcome -> trace -> Prop :=
| loop_running : loopTrace devices Running []
| loop_cancelled blk :
    tickBlock devices blk ->
    loopTrace devices Returned (blk ++ [Select gpuPeriod true])
| loop_next blk o tr :
    tickBlock devices blk -> loopTrace devices o tr ->
    loopTrace devices o (blk ++ Select gpuPeriod false :: tr).

Definition ticksRun (tr : trace) : nat := List.length (filter isSelect tr).

(** The string is made of decimal digits only. *)
Fixpoint allDigits (s : string) : bool :=
  match s with
  | EmptyString => true
  | String c rest => strconv.isDigit c && allDigits rest
  end.

(** The number a string of decimal digits writes, read after [n]. *)
Fixpoint decimalFrom (n : Z) (s : string) : Z :=
  match s with
  | EmptyString => n
  | String c rest => decimalFrom (10 * n + strconv.digit c) rest
  end.
Definition decimal (s : string) : Z := decimalFrom 0 s.

(** An entry that denotes a device index: a non-empty string of decimal
    digits whose value fits in 64 bits. *)
Definition parsable (s : string) : Prop :=
  s <> "" /\ allDigits s = true /\ decimal s <= strconv.maxUint64.

(** The indices [0], ..., [count - 1], in increasing order. *)
Definition indices (count : Z) : list uint := map Z.of_nat (seq 0 (Z.to_nat count)).

(** The first entry that does not convert, with the error of the conversion. *)
Fixpoint firstUnparsable (l : list string) : option (string * error) :=
  match l with
  | [] => None
  | s :: rest =>
      match snd (strconv.ParseUint s) with
      | Some e => Some (s, e)
      | None => firstUnparsable rest
      end
  end.

(** A failed call of the initialisation, with its error. *)
Definition initFailure (ev : event) : option error :=
  match ev with
  | CallDeviceHandleByIndex _ _ (Some e)
  | CallSetPersistenceMode _ _ (Some e)
  | CallSetComputeMode _ _ (Some e) => Some e
  | _ => None
  end.

(** A successful call of the initialisation. *)
Definition initOk (ev : event) : bool :=
  match ev with
  | CallDeviceHandleByIndex _ _ None
  | CallSetPersistenceMode _ _ None
  | CallSetComputeMode _ _ None => true
  | _ => false
  end.

(** What only the sampling loop does: it reads the clock, reads metrics,
    emits snapshots and waits in [select]. *)
Definition loopEvent (ev : event) : bool :=
  match ev with
  | TimeNow _ | Select _ _
  | CallUint _ _ _ _ | CallString _ _ _ _
  | CallAverage _ _ _ _ _ | CallMemoryInfo _ _ _ _ => true
  | LogPrintf _ [ASnapshot _] => true
  | _ => false
  end.
Definition startupEvent (ev : event) : bool := negb (loopEvent ev).

(** What the deferred [check.Err(gonvml.Shutdown)] leaves in the trace. *)
Definition shutdownTrace (err : option error) : trace :=
  CallShutdown err :: match err with
                      | Some e => [CheckErr e]
                      | None => []
                      end.

(** The session came up and the driver answered with its version [v]:
    from [w0] the program has reached device selection in [w]. *)
Definition reachesSelection {World : Type} (env : Env World) (w0 w : World) (v : string)
  : Prop :=
  exists w1,
    gonvml.Initialize (nvml env) w0 = (None, w1) /\
    gonvml.SystemDriverVersion (nvml env) w1 = ((v, None), w).

(** The [select] that took [<-ctx.Done()]. *)
Definition isCancel (ev : event) : bool :=
  match ev with
  | Select _ true => true
  | _ => false
  end.

(** [ctxDone w] tells whether the context is cancelled in the world [w].
    A [select] entered with the context already cancelled takes
    [<-ctx.Done()]: the timer it starts cannot have fired yet. *)
Definition selectHonoursDone {World : Type} (ctxDone : World -> bool) (env : Env World)
  : Prop :=
  forall timer w, ctxDone w = true -> fst (selectDone env timer w) = true.

(** A cancelled context stays cancelled through every call of a pass. *)
Definition cancellationSticks {World : Type} (ctxDone : World -> bool) (env : Env World)
  : Prop :=
  (forall w, ctxDone w = true -> ctxDone (snd (NowUnix env w)) = true) /\
  (forall i w, ctxDone w = true ->
               ctxDone (snd (gonvml.DeviceHandleByIndex (nvml env) i w)) = true) /\
  (forall m d w, ctxDone w = true ->
                 ctxDone (snd (gonvml.readUint (nvml env) m d w)) = true) /\
  (forall m d w, ctxDone w = true ->
                 ctxDone (snd (gonvml.readString (nvml env) m d w)) = true) /\
  (forall m d since w, ctxDone w = true ->
                       ctxDone (snd (gonvml.readAverage (nvml env) m d since w)) = true) /\
  (forall d w, ctxDone w = true ->
               ctxDone (snd (gonvml.MemoryInfo (nvml env) d w)) = true).

(** ** The session, the clock and the handles in a trace *)

(** How many events of a trace satisfy [p]. *)
Definition countb (p : event -> bool) (tr : trace) : nat := List.length (filter p tr).

Definition isInitialize (ev : event) : bool :=
  match ev with
  | CallInitialize _ => true
  | _ => false
  end.

Definition isShutdown (ev : event) : bool :=
  match ev with
  | CallShutdown _ => true
  | _ => false
  end.

(** What opens and closes the provider session. *)
Definition sessionEvent (ev : event) : bool :=
  match ev with
  | CallInitialize _ | CallShutdown _ | CheckErr _ => true
  | _ => false
  end.
Definition sessionFree (ev : event) : bool := negb (sessionEvent ev).

Definition isClock (ev : event) : bool :=
  match ev with
  | TimeNow _ => true
  | _ => false
  end.

(** A call into the provider. *)
Definition isProviderCall (ev : event) : bool :=
  match ev with
  | TimeNow _ | Select _ _ | LogPrintf _ _ | CheckErr _ => false
  | _ => true
  end.

(** The handle a read or a configuration write was made on. *)
Definition eventDevice (ev : event) : option gonvml.Device :=
  match ev with
  | CallSetPersistenceMode d _ _ | CallSetComputeMode d _ _
  | CallUint _ d _ _ | CallString _ d _ _
  | CallAverage _ d _ _ _ | CallMemoryInfo d _ _ _ => Some d
  | _ => None
  end.

(** The three calls that configure the device of index [i], all
    successful, [d] being the handle the first one returned. *)
Definition configured (id : uint * gonvml.Device) : trace :=
  [CallDeviceHandleByIndex (fst id) (snd id) None;
   CallSetPersistenceMode (snd id) nvmlFeatureEnabled None;
   CallSetComputeMode (snd id) nvmlComputeExclusiveProcess None].

(** The reads of the PCIe link whose failure is logged under the name of
    [PcieGeneration] (lines 241-257). *)
Definition loggedAsPcieGeneration (m : gonvml.uintRead) : bool :=
  match m with
  | gonvml.PcieGeneration | gonvml.PcieWidth
  | gonvml.PcieMaxGeneration | gonvml.PcieMaxWidth => true
  | _ => false
  end.

Section MoreInjection.

Variable World : Type.

Definition withInitialize (f : World -> option error * World)
    (p : gonvml.Provider World) : gonvml.Provider World :=
  {| gonvml.Initialize := f;
     gonvml.Shutdown := gonvml.Shutdown p;
     gonvml.SystemDriverVersion := gonvml.SystemDriverVersion p;
     gonvml.DeviceCount := gonvml.DeviceCount p;
     gonvml.DeviceHandleByIndex := gonvml.DeviceHandleByIndex p;
     gonvml.SetPersistenceMode := gonvml.SetPersistenceMode p;
     gonvml.SetComputeMode := gonvml.SetComputeMode p;
     gonvml.readUint := gonvml.readUint p;
     gonvml.readString := gonvml.readString p;
     gonvml.readAverage := gonvml.readAverage p;
     gonvml.MemoryInfo := gonvml.MemoryInfo p |}.

Definition withDeviceCount (f : World -> (uint * option error) * World)
    (p : gonvml.Provider World) : gonvml.Provider World :=
  {| gonvml.Initialize := gonvml.Initialize p;
     gonvml.Shutdown := gonvml.Shutdown p;
     gonvml.SystemDriverVersion := gonvml.SystemDriverVersion p;
     gonvml.DeviceCount := f;
     gonvml.DeviceHandleByIndex := gonvml.DeviceHandleByIndex p;
     gonvml.SetPersistenceMode := gonvml.SetPersistenceMode p;
     gonvml.SetComputeMode := gonvml.SetComputeMode p;
     gonvml.readUint := gonvml.readUint p;
     gonvml.readString := gonvml.readString p;
     gonvml.readAverage := gonvml.readAverage p;
     gonvml.MemoryInfo := gonvml.MemoryInfo p |}.

End MoreInjection.

(** More scripted hosts. *)
Module Hosts.

(** NVML cannot be loaded. *)
Definition noLibrary : Env Fake.World :=
  withNvml
    (withInitialize (fun w => (Some (NvmlError "could not load NVML library"), S w))
                    Fake.provider)
    (Fake.env [] 1000).

(** The provider reports a count that does not fit in an [int]. *)
Definition hugeCount : Env Fake.World :=
  withNvml (withDeviceCount (fun w => ((2 ^ 63, None), S w)) Fake.provider)
           (Fake.env [] 1000).

(** The width of the PCIe link cannot be read. *)
Definition pcieWidthFails : Env Fake.World :=
  withFailure (DynUint gonvml.PcieWidth) Fake.notSupported (Fake.env [] 1000).

End Hosts.

(** * Properties *)

Unset Implicit Arguments.

(** ** Running the program symbolically *)

Section Execution.

Context {World : Type}.

Lemma failSoft_call A (f : World -> (A * option error) * World) ev format w :
  failSoft (call f ev) format w =
  let '((v, err), w') := f w in (v, [ev (v, err)] ++ errLog format err, w').
Proof.
  unfold failSoft, bind, call, whenErr, logPrintf, ret, errLog.
  destruct (f w) as [[v [e|]] w']; reflexivity.
Qed.

Lemma flat_map_errLog B (f : event -> list B) format err :
  (forall e, f (LogPrintf format [AErr e]) = []) ->
  flat_map f (errLog format err) = [].
Proof. intros H; destruct err; simpl; rewrite ?H; reflexivity. Qed.

Lemma populated_errLog format err g :
  fold_left recordEvent (errLog format err) g = g.
Proof. destruct err; reflexivity. Qed.

Lemma forallb_errLog (f : event -> bool) format err :
  (forall e, f (LogPrintf format [AErr e]) = true) ->
  forallb f (errLog format err) = true.
Proof. intros H; destruct err; simpl; rewrite ?H; reflexivity. Qed.

Lemma errLog_In ev format err :
  In ev (errLog format err) -> exists e, err = Some e /\ ev = LogPrintf format [AErr e].
Proof.
  destruct err as [e|]; simpl; [|contradiction].
  intros [H|[]]. exists e. auto.
Qed.

End Execution.

(** Destructs the environment call the goal is waiting for. *)
Ltac destruct_call :=
  match goal with
  | |- context [gonvml.readUint ?p ?m ?d ?w] =>
      is_var w; destruct (gonvml.readUint p m d w) as [[? ?] ?] eqn:?
  | |- context [gonvml.readString ?p ?m ?d ?w] =>
      is_var w; destruct (gonvml.readString p m d w) as [[? ?] ?] eqn:?
  | |- context [gonvml.readAverage ?p ?m ?d ?s ?w] =>
      is_var w; destruct (gonvml.readAverage p m d s w) as [[? ?] ?] eqn:?
  | |- context [gonvml.MemoryInfo ?p ?d ?w] =>
      is_var w; destruct (gonvml.MemoryInfo p d w) as [[[? ?] ?] ?] eqn:?
  | |- context [gonvml.DeviceHandleByIndex ?p ?i ?w] =>
      is_var w; destruct (gonvml.DeviceHandleByIndex p i w) as [[? ?] ?] eqn:?
  | |- context [NowUnix ?env ?w] =>
      is_var w; destruct (NowUnix env w) as [? ?] eqn:?
  end.

Ltac destruct_err :=
  match goal with
  | |- context [match ?e with Some _ => _ | None => _ end] => is_var e; destruct e
  end.

(** Runs the fail-fast stretch of a pass to its end, one goal per way
    through it. *)
Ltac exec :=
  unfold failFast, bind,
    timeNowUnix, DeviceHandleByIndex, readUint, readString, readAverage, MemoryInfo, call;
  repeat first
    [ destruct_call
    | destruct_err
    | progress cbn [fst snd ret logPrintf app] ].

(** Uses the answer a call is already known to have given. *)
Ltac recall_call :=
  match goal with
  | H : gonvml.readUint ?p ?m ?d ?w = _ |- context [gonvml.readUint ?p ?m ?d ?w] =>
      rewrite H
  | H : gonvml.readAverage ?p ?m ?d ?s ?w = _
    |- context [gonvml.readAverage ?p ?m ?d ?s ?w] => rewrite H
  | H : gonvml.MemoryInfo ?p ?d ?w = _ |- context [gonvml.MemoryInfo ?p ?d ?w] =>
      rewrite H
  end.

(** Runs the fail-soft stretch of a pass to its end. *)
Ltac exec_soft :=
  unfold bind, readUint, readAverage, MemoryInfo;
  repeat first
    [ rewrite failSoft_call
    | progress unfold failing
    | progress cbn [fst snd ret app]
    | recall_call
    | destruct_call ].

(** Looks through an injected failure to the provider underneath. *)
Ltac see_through :=
  cbn [nvml NowUnix withFailure withNvml injectFailure
       withReadUint withReadAverage withMemoryInfo
       gonvml.readUint gonvml.readAverage gonvml.readString gonvml.MemoryInfo
       gonvml.DeviceHandleByIndex
       uintRead_beq averageRead_beq].

(** Splits a concrete list before its last two elements. *)
Ltac split_last2 :=
  match goal with
  | |- exists pre ev format args, _ =>
      match goal with
      | |- context [?l = _ ++ _] =>
          let n := eval cbv in (List.length l - 2)%nat in
          exists (firstn n l); do 3 eexists
      end
  end.

(** Looks for an event in a symbolic trace. *)
Ltac find_in :=
  match goal with
  | |- In _ (_ :: _) => first [ left; reflexivity | right; find_in ]
  | |- In _ (_ ++ _) =>
      apply in_or_app;
      first [ left; simpl; left; reflexivity | left; find_in | right; find_in ]
  end.

(** Goes through the events of a symbolic trace. *)
Ltac in_trace H :=
  repeat match type of H with
  | In _ (_ :: _) => destruct H as [H|H]
  | In _ (_ ++ _) => apply in_app_or in H; destruct H as [H|H]
  | In _ (errLog _ _) => apply errLog_In in H; destruct H as (? & ? & H)
  | In _ [] => destruct H
  end.

Section Pass.

Context {World : Type}.
Variable env : Env World.

Lemma devicePass_unfold i w :
  devicePass env i w =
  let '(r, t1, w1) := identity env i w in
  match r with
  | None => (tt, t1, w1)
  | Some (dev, g) =>
      let '(g', t2, w2) := dynamic env dev g w1 in
      (tt, t1 ++ t2 ++ [LogPrintf "GPU Snapshot: %+v" [ASnapshot g']], w2)
  end.
Proof.
  unfold devicePass, bind.
  destruct (identity env i w) as [[[[dev g]|] t1] w1].
  - destruct (dynamic env dev g w1) as [[g' t2] w2].
    unfold logPrintf. reflexivity.
  - unfold ret. rewrite app_nil_r. reflexivity.
Qed.

Lemma tick_unfold i rest w :
  tick env (i :: rest) w =
  (tt,
   traceOf (devicePass env i w) ++ traceOf (tick env rest (worldOf (devicePass env i w))),
   worldOf (tick env rest (worldOf (devicePass env i w)))).
Proof.
  cbn [tick]. unfold bind, traceOf, worldOf.
  destruct (devicePass env i w) as [[[] t1] w1]. cbn [fst snd].
  destruct (tick env rest w1) as [[[] t2] w2]. reflexivity.
Qed.

(** The first stretch of a pass either stops at its first failure, right
    after logging it, or gets through with every answer stored. *)
Lemma identity_spec i w :
  match identity env i w with
  | (None, tr, _) =>
      exists pre ev format args e,
        tr = pre ++ [ev; LogPrintf format args] /\
        identityFailure ev = true /\
        callError ev = Some e /\ In (AErr e) args /\
        snapshotOfEvent (LogPrintf format args) = [] /\
        forallb identityOk pre = true /\
        handleCalls tr = [i]
  | (Some (dev, g), tr, _) =>
      forallb identityOk tr = true /\
      g = populated tr /\
      handleCalls tr = [i] /\
      In (CallDeviceHandleByIndex i dev None) tr
  end.
Proof.
  unfold identity. exec;
    try (split_last2; eexists; repeat split; simpl; auto; reflexivity).
  repeat split; try reflexivity. simpl. auto.
Qed.

(** The second stretch makes every dynamic read, in order, whatever
    fails; each answer is stored and each failure is logged. *)
Lemma dynamic_spec dev g w :
  let '(g', tr, _) := dynamic env dev g w in
  forallb dynamicEvent tr = true /\
  g' = fold_left recordEvent tr g /\
  dynamicReads tr = dynamicOrder /\
  (forall ev r e, In ev tr -> failedDynamic ev = Some (r, e) ->
                  In (LogPrintf (formatOf r) [AErr e]) tr).
Proof.
  unfold dynamic. exec_soft.
  split; [|split; [|split]].
  - repeat (cbn [forallb dynamicEvent isIdentityUint negb andb];
            rewrite ?forallb_app, ?forallb_errLog by reflexivity).
    reflexivity.
  - repeat (cbn [fold_left recordEvent setUint setAverage];
            rewrite ?fold_left_app, ?populated_errLog).
    reflexivity.
  - unfold dynamicReads.
    repeat (cbn [flat_map dynamicReadOfEvent isIdentityUint app];
            rewrite ?flat_map_app, ?flat_map_errLog by reflexivity).
    reflexivity.
  - intros ev r e H Hf.
    in_trace H; subst; simpl in Hf; try discriminate;
      match type of Hf with
      | match ?o with Some _ => _ | None => _ end = _ => destruct o; [|discriminate]
      end;
      inversion Hf; subst; cbn [formatOf]; find_in.
Qed.

(** Utilization and power are averaged over [gpuPeriod], ten seconds, the
    period of the timer that ends a tick. *)
Lemma averaging_window_is_tick_period dev g w :
  forallb windowOk (traceOf (dynamic env dev g w)) = true /\
  windowOk (Select gpuPeriod false) = true /\
  gpuPeriod = 10 * Second.
Proof.
  split; [|split; reflexivity].
  unfold dynamic. exec_soft. unfold traceOf. cbn [fst snd].
  repeat (cbn [forallb windowOk andb];
          rewrite ?forallb_app, ?forallb_errLog, ?Z.eqb_refl by reflexivity).
  reflexivity.
Qed.

Lemma identityOk_quiet ev :
  identityOk ev = true ->
  identityFailure ev = false /\ snapshotOfEvent ev = [] /\
  dynamicReadOfEvent ev = [] /\ isSelect ev = false.
Proof.
  destruct ev as [| | | | ? ? [?|] | | | m ? ? [?|] | ? ? ? [?|] | | | | | |];
    simpl; try discriminate; auto.
  - destruct m; simpl; auto; discriminate.
Qed.

Lemma dynamicEvent_quiet ev :
  dynamicEvent ev = true ->
  identityFailure ev = false /\ snapshotOfEvent ev = [] /\
  handleOfEvent ev = [] /\ isSelect ev = false.
Proof.
  destruct ev as [| | | | | | | m ? ? [?|] | | | | | | ? [|[] [|]] |];
    simpl; try discriminate; auto.
  - destruct m; simpl; auto; discriminate.
Qed.

Lemma flat_map_nil_forallb B (f : event -> list B) (p : event -> bool) tr :
  (forall ev, p ev = true -> f ev = []) ->
  forallb p tr = true -> flat_map f tr = [].
Proof.
  intros Hp. induction tr as [|ev tr IH]; simpl; [reflexivity|].
  intros H. apply andb_prop in H. destruct H as [H1 H2].
  rewrite (Hp _ H1), (IH H2). reflexivity.
Qed.

End Pass.

(** Brings the observers of a symbolic trace to normal form. *)
Ltac norm_trace :=
  unfold snapshots, dynamicReads, handleCalls, populated;
  repeat (cbn [flat_map fold_left app
               snapshotOfEvent dynamicReadOfEvent handleOfEvent recordEvent
               isIdentityUint setUint setAverage setString errArg];
          rewrite ?flat_map_app, ?fold_left_app, ?populated_errLog,
                  ?flat_map_errLog by reflexivity).

(** Runs [devicePass env i w], named [r] in the goal, to its end. *)
Ltac exec_pass r Hr :=
  revert Hr; rewrite devicePass_unfold; unfold identity; exec;
  [ .. | unfold dynamic; exec_soft ];
  intros Hr; subst r; unfold traceOf, worldOf, valueOf in *; cbn [fst snd] in *.

(** ** The device pass *)

Section PassTheorems.

Context {World : Type}.
Variable env : Env World.

(** C1. In every device pass, if the handle resolution or one of the
    seven identity reads comes back with an error, the pass emits no
    snapshot and makes no further read: the failed call is its last
    call, followed only by the line that logs the error.  The pass
    still ends normally, and the tick goes on with the devices that
    remain, from the world the pass left. *)
Theorem identity_failure_abandons_pass (i : uint) (w : World) (ev : event) :
  In ev (traceOf (devicePass env i w)) ->
  identityFailure ev = true ->
  snapshots (traceOf (devicePass env i w)) = [] /\
  dynamicReads (traceOf (devicePass env i w)) = [] /\
  (exists pre format args e,
      traceOf (devicePass env i w) = pre ++ [ev; LogPrintf format args] /\
      callError ev = Some e /\ In (AErr e) args) /\
  (forall rest,
      tick env (i :: rest) w =
      (tt,
       traceOf (devicePass env i w)
         ++ traceOf (tick env rest (worldOf (devicePass env i w))),
       worldOf (tick env rest (worldOf (devicePass env i w))))).
Proof.
  intros Hin Hfail.
  cut (snapshots (traceOf (devicePass env i w)) = [] /\
       dynamicReads (traceOf (devicePass env i w)) = [] /\
       (exists pre format args e,
           traceOf (devicePass env i w) = pre ++ [ev; LogPrintf format args] /\
           callError ev = Some e /\ In (AErr e) args)).
  { intros (H1 & H2 & H3). repeat split; auto. intros rest. apply tick_unfold. }
  remember (devicePass env i w) as r eqn:Hr.
  exec_pass r Hr.
  1-8: in_trace Hin; subst; simpl in Hfail; try discriminate;
       (split; [reflexivity|split; [reflexivity|]]);
       split_last2; (split; [reflexivity|]); simpl; auto.
  exfalso.
  in_trace Hin; subst; simpl in Hfail; try discriminate;
    match type of Hfail with
    | match ?o with Some _ => _ | None => _ end = _ => destruct o; discriminate
    end.
Qed.

Lemma identity_withFailure r e i w :
  isDynamic r = true ->
  identity (withFailure r e env) i w = identity env i w.
Proof.
  destruct r as [m| |m]; [| |destruct m]; try discriminate; intros _; reflexivity.
Qed.

Lemma dynamic_withFailure r e dev g w :
  isDynamic r = true ->
  let '(g1, _, w1) := dynamic env dev g w in
  let '(g2, tr2, w2) := dynamic (withFailure r e env) dev g w in
  g2 = zeroFields r g1 /\ w2 = w1 /\
  In (LogPrintf (formatOf r) [AErr e]) tr2.
Proof.
  destruct g.
  destruct r as [[|]| |[]]; try discriminate; intros _;
    unfold dynamic, readUint, readAverage, MemoryInfo; see_through.
  all: exec_soft.
  all: (split; [reflexivity|split; [reflexivity|]]).
  all: cbn [formatOf]; find_in.
Qed.

Lemma snapshots_app t1 t2 : snapshots (t1 ++ t2) = snapshots t1 ++ snapshots t2.
Proof. apply flat_map_app. Qed.

Lemma identityOk_snapshots tr : forallb identityOk tr = true -> snapshots tr = [].
Proof. apply flat_map_nil_forallb. intros ev H. apply identityOk_quiet in H. tauto. Qed.

Lemma identityOk_dynamicReads tr : forallb identityOk tr = true -> dynamicReads tr = [].
Proof. apply flat_map_nil_forallb. intros ev H. apply identityOk_quiet in H. tauto. Qed.

Lemma dynamicEvent_snapshots tr : forallb dynamicEvent tr = true -> snapshots tr = [].
Proof. apply flat_map_nil_forallb. intros ev H. apply dynamicEvent_quiet in H. tauto. Qed.

Lemma zeroFields_frame r g :
  (fieldDiffs g (zeroFields r g) <= match r with DynMemoryInfo => 2 | _ => 1 end)%nat.
Proof.
  destruct g. unfold fieldDiffs, differs.
  destruct r as [[|]| |[]]; cbn -[Z.eqb String.eqb Nat.add];
    rewrite ?Z.eqb_refl, ?String.eqb_refl;
    repeat match goal with |- context [if ?b then _ else _] => destruct b end;
    cbn; lia.
Qed.

Lemma identityOk_noFailure tr :
  forallb identityOk tr = true -> forallb noIdentityFailure tr = true.
Proof.
  intros H. apply forallb_forall. intros ev Hin. rewrite forallb_forall in H.
  apply H in Hin. apply identityOk_quiet in Hin.
  unfold noIdentityFailure. destruct Hin as (-> & _). reflexivity.
Qed.

Lemma dynamicEvent_noFailure tr :
  forallb dynamicEvent tr = true -> forallb noIdentityFailure tr = true.
Proof.
  intros H. apply forallb_forall. intros ev Hin. rewrite forallb_forall in H.
  apply H in Hin. apply dynamicEvent_quiet in Hin.
  unfold noIdentityFailure. destruct Hin as (-> & _). reflexivity.
Qed.

(** What a pass that emits a snapshot looks like. *)
Lemma completed_pass i w g :
  snapshots (traceOf (devicePass env i w)) = [g] ->
  exists dev g0 t1 w1 t2 w2,
    identity env i w = (Some (dev, g0), t1, w1) /\
    dynamic env dev g0 w1 = (g, t2, w2) /\
    devicePass env i w = (tt, t1 ++ t2 ++ [LogPrintf "GPU Snapshot: %+v" [ASnapshot g]], w2).
Proof.
  rewrite devicePass_unfold.
  pose proof (identity_spec env i w) as Hs.
  destruct (identity env i w) as [[[[dev g0]|] t1] w1] eqn:Hid.
  - pose proof (dynamic_spec env dev g0 w1) as Hd.
    destruct (dynamic env dev g0 w1) as [[g1 t2] w2] eqn:Hdy.
    destruct Hs as (Hok & _). destruct Hd as (Hdyn & _).
    unfold traceOf; cbn [fst snd].
    rewrite !snapshots_app, (identityOk_snapshots _ Hok), (dynamicEvent_snapshots _ Hdyn).
    cbn. intros H; inversion H; subst.
    exists dev, g0, t1, w1, t2, w2. auto.
  - destruct Hs as (pre & ev & format & args & e & -> & Hf & _ & _ & Hlog & Hpre & _).
    unfold traceOf; cbn [fst snd].
    rewrite snapshots_app, (identityOk_snapshots _ Hpre).
    unfold snapshots. cbn [flat_map app]. rewrite Hlog.
    destruct ev as [| | | | ? ? [?|] | | | m ? ? [?|] | ? ? ? [?|] | | | | | |];
      try discriminate; cbn; discriminate.
Qed.

(** C2, as the code has it.  The temperature read of a pass is made only
    when the handle resolution and the identity reads have all succeeded.
    When it comes back with an error, the pass still emits exactly one
    snapshot; its [Temperature] is the value that came back with the
    error, so it is 0 whenever the provider hands back 0 with its
    errors; every field holds what its own read answered; and a line
    naming the temperature read is logged with the error. *)
Theorem temperature_failure_keeps_snapshot
    (i : uint) (w : World) (dev : gonvml.Device) (v : uint) (e : error) :
  In (CallUint gonvml.Temperature dev v (Some e)) (traceOf (devicePass env i w)) ->
  forallb noIdentityFailure (traceOf (devicePass env i w)) = true /\
  exists g,
    snapshots (traceOf (devicePass env i w)) = [g] /\
    Temperature g = v /\
    (v = 0 -> Temperature g = 0) /\
    g = populated (traceOf (devicePass env i w)) /\
    In (LogPrintf "Temperature() error: %v" [AErr e]) (traceOf (devicePass env i w)).
Proof.
  intros Hin.
  assert (Hmain : exists g,
             snapshots (traceOf (devicePass env i w)) = [g] /\
             Temperature g = v /\
             g = populated (traceOf (devicePass env i w)) /\
             In (LogPrintf "Temperature() error: %v" [AErr e])
                (traceOf (devicePass env i w))).
  { remember (devicePass env i w) as r eqn:Hr.
    exec_pass r Hr.
    1-8: exfalso; in_trace Hin; discriminate.
    in_trace Hin; try discriminate.
    inversion Hin; subst.
    eexists. split; [norm_trace; reflexivity|].
    split; [reflexivity|].
    split; [norm_trace; reflexivity|].
    find_in. }
  destruct Hmain as (g & Hs & Ht & Hg & Hl).
  split.
  - destruct (completed_pass i w g Hs) as (d & g0 & t1 & w1 & t2 & w2 & Hid & Hdy & Hrun).
    pose proof (identity_spec env i w) as Hi. rewrite Hid in Hi.
    pose proof (dynamic_spec env d g0 w1) as Hd. rewrite Hdy in Hd.
    rewrite Hrun. unfold traceOf; cbn [fst snd].
    rewrite !forallb_app, (identityOk_noFailure _ (proj1 Hi)),
      (dynamicEvent_noFailure _ (proj1 Hd)). reflexivity.
  - exists g. repeat split; try assumption. intros Hv. congruence.
Qed.

(** C3, as the code has it.  In a pass that emits a snapshot, every
    dynamic read is made, in the order of the source, whatever fails;
    every field holds what its own read answered and every failure is
    logged.  Making one dynamic read fail, with the zero value for an
    answer, changes nothing but the fields that read fills: they are
    zero and every other field is as before.  That is one field for
    each read but [MemoryInfo], which fills both [TotalMemory] and
    [UsedMemory]; the other reads are all still made and the failure
    is logged. *)
Theorem failed_dynamic_read_frame (i : uint) (w : World) (g : GPUSnapshot) :
  snapshots (traceOf (devicePass env i w)) = [g] ->
  (g = populated (traceOf (devicePass env i w)) /\
   dynamicReads (traceOf (devicePass env i w)) = dynamicOrder /\
   (forall ev r e, In ev (traceOf (devicePass env i w)) ->
                   failedDynamic ev = Some (r, e) ->
                   In (LogPrintf (formatOf r) [AErr e]) (traceOf (devicePass env i w)))) /\
  (forall r e,
      isDynamic r = true ->
      snapshots (traceOf (devicePass (withFailure r e env) i w)) = [zeroFields r g] /\
      (fieldDiffs g (zeroFields r g)
       <= match r with DynMemoryInfo => 2 | _ => 1 end)%nat /\
      dynamicReads (traceOf (devicePass (withFailure r e env) i w)) = dynamicOrder /\
      In (LogPrintf (formatOf r) [AErr e])
         (traceOf (devicePass (withFailure r e env) i w))).
Proof.
  intros H.
  destruct (completed_pass _ _ _ H) as (dev & g0 & t1 & w1 & t2 & w2 & Hid & Hdy & Hrun).
  pose proof (identity_spec env i w) as Hs. rewrite Hid in Hs.
  destruct Hs as (Hok & Hg0 & _).
  pose proof (dynamic_spec env dev g0 w1) as Hd. rewrite Hdy in Hd.
  destruct Hd as (Hdyn & Hg & Hreads & Hlogs).
  split.
  - rewrite Hrun. unfold traceOf; cbn [fst snd]. split; [|split].
    + unfold populated. rewrite !fold_left_app. cbn [fold_left recordEvent].
      rewrite Hg, Hg0. reflexivity.
    + unfold dynamicReads. rewrite !flat_map_app.
      fold (dynamicReads t1). fold (dynamicReads t2).
      rewrite (identityOk_dynamicReads _ Hok), Hreads. reflexivity.
    + intros ev r e Hin Hf.
      apply in_or_app. right. apply in_or_app. left.
      apply in_app_or in Hin. destruct Hin as [Hin|Hin].
      * exfalso. rewrite forallb_forall in Hok. specialize (Hok _ Hin).
        destruct ev as [| | | | ? ? [?|] | | | m ? ? [?|] | ? ? ? [?|] | | | | | |];
          discriminate.
      * apply in_app_or in Hin. destruct Hin as [Hin|Hin]; [eauto|].
        destruct Hin as [<-|[]]. discriminate.
  - intros r e Hr.
    split; [|split; [apply zeroFields_frame|]].
    + rewrite devicePass_unfold, (identity_withFailure r e i w Hr), Hid.
      pose proof (dynamic_withFailure r e dev g0 w1 Hr) as Hw. rewrite Hdy in Hw.
      pose proof (dynamic_spec (withFailure r e env) dev g0 w1) as Hd'.
      destruct (dynamic (withFailure r e env) dev g0 w1) as [[g2 t2'] w2'].
      destruct Hw as (-> & _ & _). destruct Hd' as (Hdyn' & _).
      unfold traceOf; cbn [fst snd].
      rewrite !snapshots_app, (identityOk_snapshots _ Hok), (dynamicEvent_snapshots _ Hdyn').
      reflexivity.
    + rewrite devicePass_unfold, (identity_withFailure r e i w Hr), Hid.
      pose proof (dynamic_withFailure r e dev g0 w1 Hr) as Hw. rewrite Hdy in Hw.
      pose proof (dynamic_spec (withFailure r e env) dev g0 w1) as Hd'.
      destruct (dynamic (withFailure r e env) dev g0 w1) as [[g2 t2'] w2'].
      destruct Hw as (-> & _ & Hlog). destruct Hd' as (_ & _ & Hreads' & _).
      unfold traceOf; cbn [fst snd]. split.
      * unfold dynamicReads. rewrite !flat_map_app.
        fold (dynamicReads t1). fold (dynamicReads t2').
        rewrite (identityOk_dynamicReads _ Hok), Hreads'. reflexivity.
      * apply in_or_app. right. apply in_or_app. left. exact Hlog.
Qed.
End PassTheorems.

Section Loop.
Context {World : Type}.
Variable env : Env World.

Lemma handleCalls_app t1 t2 : handleCalls (t1 ++ t2) = handleCalls t1 ++ handleCalls t2.
Proof. apply flat_map_app. Qed.

Lemma identityOk_handleFree_notSelect tr :
  forallb identityOk tr = true -> forallb notSelect tr = true.
Proof.
  intros H. apply forallb_forall. intros ev Hin.
  rewrite forallb_forall in H. apply H in Hin. apply identityOk_quiet in Hin.
  unfold notSelect. destruct Hin as (_ & _ & _ & ->). reflexivity.
Qed.

Lemma dynamicEvent_notSelect tr :
  forallb dynamicEvent tr = true -> forallb notSelect tr = true.
Proof.
  intros H. apply forallb_forall. intros ev Hin.
  rewrite forallb_forall in H. apply H in Hin. apply dynamicEvent_quiet in Hin.
  unfold notSelect. destruct Hin as (_ & _ & _ & ->). reflexivity.
Qed.

Lemma dynamicEvent_handleCalls tr : forallb dynamicEvent tr = true -> handleCalls tr = [].
Proof. apply flat_map_nil_forallb. intros ev H. apply dynamicEvent_quiet in H. tauto. Qed.

Lemma identity_starts i w :
  exists unix rest, traceOf (identity env i w) = TimeNow unix :: rest.
Proof.
  unfold identity, bind, timeNowUnix, call.
  destruct (NowUnix env w) as [unix w0].
  match goal with |- context [failFast ?a ?b ?c ?d w0] =>
    destruct (failFast a b c d w0) as [[r t] w1] end.
  exists unix, t. reflexivity.
Qed.

Lemma devicePass_block i w : passBlock i (traceOf (devicePass env i w)).
Proof.
  rewrite devicePass_unfold.
  pose proof (identity_spec env i w) as Hs.
  pose proof (identity_starts i w) as (unix & rest & Hst).
  destruct (identity env i w) as [[[[dev g0]|] t1] w1]; unfold traceOf in *; cbn [fst snd] in *.
  - pose proof (dynamic_spec env dev g0 w1) as Hd.
    destruct (dynamic env dev g0 w1) as [[g1 t2] w2]. cbn [fst snd].
    destruct Hs as (Hok & _ & Hh & _). destruct Hd as (Hdyn & _).
    repeat split.
    + rewrite !handleCalls_app, Hh, (dynamicEvent_handleCalls _ Hdyn). reflexivity.
    + rewrite !forallb_app, (identityOk_handleFree_notSelect _ Hok),
        (dynamicEvent_notSelect _ Hdyn). reflexivity.
    + rewrite !snapshots_app, (identityOk_snapshots _ Hok), (dynamicEvent_snapshots _ Hdyn).
      cbn. lia.
    + subst t1. exists unix, (rest ++ t2 ++ [LogPrintf "GPU Snapshot: %+v" [ASnapshot g1]]).
      reflexivity.
  - destruct Hs as (pre & ev & format & args & e & Heq & Hf & _ & _ & Hlog & Hpre & Hh).
    repeat split.
    + exact Hh.
    + rewrite Heq, forallb_app, (identityOk_handleFree_notSelect _ Hpre).
      destruct ev; try discriminate; reflexivity.
    + rewrite Heq, snapshots_app, (identityOk_snapshots _ Hpre).
      unfold snapshots. cbn [flat_map app]. rewrite Hlog.
      destruct ev as [| | | | ? ? [?|] | | | m ? ? [?|] | ? ? ? [?|] | | | | | |];
        try discriminate; cbn; lia.
    + eauto.
Qed.

Lemma tick_block devices w : tickBlock devices (traceOf (tick env devices w)).
Proof.
  revert w. induction devices as [|i rest IH]; intros w.
  - constructor.
  - rewrite tick_unfold. unfold traceOf at 1. cbn [fst snd].
    constructor; [apply devicePass_block|apply IH].
Qed.

Lemma monitor_unfold fuel devices w :
  monitor env (S fuel) devices w =
  let w1 := worldOf (tick env devices w) in
  let '(done, w2) := selectDone env gpuPeriod w1 in
  if done
  then (Returned, traceOf (tick env devices w) ++ [Select gpuPeriod true], w2)
  else (valueOf (monitor env fuel devices w2),
        traceOf (tick env devices w) ++ Select gpuPeriod false
          :: traceOf (monitor env fuel devices w2),
        worldOf (monitor env fuel devices w2)).
Proof.
  cbn [monitor]. unfold bind, selectCtxDone, call, traceOf, worldOf, valueOf.
  destruct (tick env devices w) as [[[] t1] w1]. cbn [fst snd].
  destruct (selectDone env gpuPeriod w1) as [[|] w2].
  - reflexivity.
  - destruct (monitor env fuel devices w2) as [[o t2] w3]. reflexivity.
Qed.

Lemma monitor_loopTrace fuel devices w :
  loopTrace devices (valueOf (monitor env fuel devices w))
            (traceOf (monitor env fuel devices w)).
Proof.
  revert w. induction fuel as [|fuel IH]; intros w.
  - constructor.
  - rewrite monitor_unfold. cbv zeta.
    destruct (selectDone env gpuPeriod _) as [[|] w2]; unfold valueOf, traceOf; cbn [fst snd].
    + constructor. apply tick_block.
    + constructor; [apply tick_block|apply IH].
Qed.

Lemma tickBlock_facts devices blk :
  tickBlock devices blk ->
  handleCalls blk = devices /\ forallb notSelect blk = true /\
  (List.length (snapshots blk) <= List.length devices)%nat.
Proof.
  induction 1 as [|i rest p tr (Hh & Hs & Hn & _) _ (IH1 & IH2 & IH3)].
  - repeat split; cbn; lia.
  - rewrite handleCalls_app, forallb_app, snapshots_app, length_app, Hh, Hs, IH1, IH2.
    repeat split. cbn [List.length]. lia.
Qed.

End Loop.

Section Conversion.

Lemma digit_range c : strconv.isDigit c = true -> 0 <= strconv.digit c <= 9.
Proof.
  unfold strconv.isDigit, strconv.digit. intros H.
  apply andb_prop in H. destruct H as [H1 H2].
  apply Z.leb_le in H1, H2. lia.
Qed.

Lemma decimalFrom_mono s : forall m n,
  allDigits s = true -> m <= n -> decimalFrom m s <= decimalFrom n s.
Proof.
  induction s as [|c rest IH]; intros m n Hd Hmn; cbn [decimalFrom allDigits] in *; [lia|].
  apply andb_prop in Hd. destruct Hd as [Hc Hr].
  apply IH; [assumption|lia].
Qed.

Lemma decimalFrom_ge s : forall n,
  allDigits s = true -> 0 <= n -> n <= decimalFrom n s.
Proof.
  induction s as [|c rest IH]; intros n Hd Hn; cbn [decimalFrom allDigits] in *; [lia|].
  apply andb_prop in Hd. destruct Hd as [Hc Hr].
  pose proof (digit_range c Hc).
  specialize (IH (10 * n + strconv.digit c) Hr). lia.
Qed.

(** The scanning loop answers the decimal value exactly when every byte
    is a digit and the value fits. *)
Lemma scan_spec s0 s : forall n,
  0 <= n <= strconv.maxUint64 ->
  if allDigits s && (decimalFrom n s <=? strconv.maxUint64)
  then strconv.scan s0 s n = (decimalFrom n s, None)
  else exists v e, strconv.scan s0 s n = (v, Some e).
Proof.
  induction s as [|c rest IH]; intros n Hn.
  - cbn [allDigits decimalFrom strconv.scan andb].
    destruct (n <=? strconv.maxUint64) eqn:E; [reflexivity|].
    apply Z.leb_gt in E. lia.
  - cbn [allDigits decimalFrom strconv.scan].
    destruct (strconv.isDigit c) eqn:Hc; cbn [andb]; [|eauto].
    pose proof (digit_range c Hc) as Hd.
    unfold strconv.cutoff, strconv.maxUint64 in *.
    change (2 ^ 64 - 1) with 18446744073709551615 in *.
    change (18446744073709551615 / 10 + 1) with 1844674407370955162.
    change (2 ^ 64) with 18446744073709551616.
    destruct (n >=? 1844674407370955162) eqn:Hcut.
    + assert (Hbig : 18446744073709551615 < 10 * n + strconv.digit c) by lia.
      destruct (allDigits rest) eqn:Hr; cbn [andb]; [|eauto].
      pose proof (decimalFrom_ge rest (10 * n + strconv.digit c) Hr ltac:(lia)).
      destruct (_ <=? _) eqn:E; [lia|eauto].
    + assert (Hsmall : n * 10 + strconv.digit c < 2 * 18446744073709551616) by lia.
      destruct (Z_lt_ge_dec (n * 10 + strconv.digit c) 18446744073709551616) as [Hfit|Hover].
      * rewrite (Z.mod_small (n * 10 + strconv.digit c)) by lia.
        replace ((n * 10 + strconv.digit c <? n * 10)
                 || (n * 10 + strconv.digit c >? 18446744073709551615)) with false
          by (symmetry; apply orb_false_iff; split; lia).
        replace (10 * n + strconv.digit c) with (n * 10 + strconv.digit c) by lia.
        apply IH. lia.
      * assert (Hm : (n * 10 + strconv.digit c) mod 18446744073709551616
                     = n * 10 + strconv.digit c - 18446744073709551616).
        { symmetry. apply Z.mod_unique_pos with (q := 1); lia. }
        rewrite Hm.
        replace ((n * 10 + strconv.digit c - 18446744073709551616 <? n * 10)
                 || (n * 10 + strconv.digit c - 18446744073709551616
                     >? 18446744073709551615)) with true
          by (symmetry; apply orb_true_iff; left; lia).
        destruct (allDigits rest) eqn:Hr; cbn [andb]; [|eauto].
        pose proof (decimalFrom_ge rest (10 * n + strconv.digit c) Hr ltac:(lia)).
        destruct (_ <=? _) eqn:E; [lia|eauto].
Qed.

(** [ParseUint] succeeds on the entries that denote an index, with the
    number they write, and on no other. *)
Lemma ParseUint_spec s :
  (parsable s -> strconv.ParseUint s = (decimal s, None)) /\
  (forall v, strconv.ParseUint s = (v, None) ->
             parsable s /\ v = decimal s /\ 0 <= v < uintModulus).
Proof.
  pose proof (scan_spec s s 0) as H.
  assert (H0 : 0 <= 0 <= strconv.maxUint64) by (unfold strconv.maxUint64; lia).
  specialize (H H0). fold (decimal s) in H.
  unfold parsable. destruct s as [|c rest].
  - split; [intros (Hne & _); congruence|]. cbn. intros v Hv. discriminate.
  - change (strconv.ParseUint (String c rest))
      with (strconv.scan (String c rest) (String c rest) 0).
    destruct (allDigits (String c rest)) eqn:Hd; cbn [andb] in H.
    + destruct (decimal (String c rest) <=? strconv.maxUint64) eqn:Hle.
      * split; [intros _; exact H|].
        intros v Hv. rewrite H in Hv. inversion Hv; subst.
        pose proof (decimalFrom_ge (String c rest) 0 Hd ltac:(lia)) as Hge.
        fold (decimal (String c rest)) in Hge.
        unfold uintModulus, strconv.maxUint64 in *.
        repeat split; try congruence; lia.
      * destruct H as (v' & e & H). split.
        -- intros (_ & _ & Hle'). lia.
        -- intros v Hv. congruence.
    + destruct H as (v' & e & H). split.
      * intros (_ & Hd' & _). congruence.
      * intros v Hv. congruence.
Qed.

Lemma firstUnparsable_None l :
  firstUnparsable l = None <-> Forall parsable l.
Proof.
  induction l as [|s rest IH]; cbn.
  - split; auto.
  - destruct (strconv.ParseUint s) as [v [e|]] eqn:Hp; cbn.
    + split; [discriminate|]. intros H. inversion H; subst.
      apply (proj1 (ParseUint_spec s)) in H2. congruence.
    + rewrite IH. split.
      * intros H. constructor; [|assumption].
        apply (proj2 (ParseUint_spec s) v Hp).
      * intros H. inversion H; assumption.
Qed.

End Conversion.

Section Selection.
Context {World : Type}.
Variable env : Env World.

Lemma uint_of_int_small i : 0 <= i < uintModulus -> uint_of_int i = i.
Proof. intros H. unfold uint_of_int. apply Z.mod_small. assumption. Qed.

Lemma int_of_uint_small x : 0 <= x < 2 ^ 63 -> int_of_uint x = x.
Proof.
  intros H. unfold int_of_uint, uintModulus. cbv zeta.
  rewrite Z.mod_small by lia.
  destruct (x <? 2 ^ 63) eqn:E; [reflexivity|lia].
Qed.

(** With fuel for every index left, the counting loop runs to its exit
    and appends the indices from [i] up to the bound. *)
Lemma countLoop_spec fuel : forall i bound devices,
  0 <= i -> bound < 2 ^ 63 ->
  (Z.to_nat (bound - i) <= fuel)%nat ->
  countLoop fuel i bound devices =
  devices ++ map Z.of_nat (seq (Z.to_nat i) (Z.to_nat (bound - i))).
Proof.
  induction fuel as [|fuel IH]; intros i bound devices Hi Hb Hf.
  - cbn. replace (Z.to_nat (bound - i)) with 0%nat by lia. cbn.
    symmetry. apply app_nil_r.
  - cbn [countLoop]. destruct (i <? bound) eqn:E.
    + rewrite IH by lia.
      rewrite uint_of_int_small by (unfold uintModulus; lia).
      replace (Z.to_nat (bound - i)) with (S (Z.to_nat (bound - (i + 1)))) by lia.
      cbn [seq map]. rewrite <- app_assoc. cbn [app].
      rewrite Z2Nat.id by lia.
      replace (Z.to_nat (i + 1)) with (S (Z.to_nat i)) by lia. reflexivity.
    + replace (Z.to_nat (bound - i)) with 0%nat by lia. cbn.
      symmetry. apply app_nil_r.
Qed.

Lemma parseLoop_spec l : forall devices (w : World),
  parseLoop l devices w =
  match firstUnparsable l with
  | None => (Ok (devices ++ map decimal l), [], w)
  | Some (s, e) =>
      (Panic e, [LogPrintf "Invalid devices entry %s: %v" [AStr s; AErr e]], w)
  end.
Proof.
  induction l as [|s rest IH]; intros devices w.
  - cbn. rewrite app_nil_r. reflexivity.
  - cbn [parseLoop firstUnparsable map].
    destruct (strconv.ParseUint s) as [u [e|]] eqn:Hp; cbn [snd].
    + reflexivity.
    + rewrite IH.
      destruct (proj2 (ParseUint_spec s) u Hp) as (_ & -> & Hr).
      rewrite uint_of_int_small by assumption.
      destruct (firstUnparsable rest) as [[s' e']|]; [reflexivity|].
      rewrite <- app_assoc. reflexivity.
Qed.

End Selection.

Section Startup.
Context {World : Type}.
Variable env : Env World.

Lemma check_Err_Shutdown w :
  check_Err (Shutdown env) w =
  (tt, shutdownTrace (fst (gonvml.Shutdown (nvml env) w)),
   snd (gonvml.Shutdown (nvml env) w)).
Proof.
  unfold check_Err, Shutdown, bind, call, whenErr, ret, shutdownTrace.
  destruct (gonvml.Shutdown (nvml env) w) as [[e|] w']; reflexivity.
Qed.

Lemma selectDevices_startup w :
  forallb startupEvent (traceOf (selectDevices env w)) = true /\
  handleCalls (traceOf (selectDevices env w)) = [] /\
  snapshots (traceOf (selectDevices env w)) = [].
Proof.
  unfold selectDevices. cbv zeta.
  destruct (List.length _ =? 0)%nat.
  - unfold bind, DeviceCount, call.
    destruct (gonvml.DeviceCount (nvml env) w) as [[n [e|]] w']; cbn; auto.
  - rewrite parseLoop_spec.
    destruct (firstUnparsable _) as [[s e]|]; cbn; auto.
Qed.

(** Initialisation goes through the devices in order and stops at the
    first call that fails, right after logging it. *)
Lemma initialize_spec devices : forall w,
  match initialize env devices w with
  | (Ok _, tr, _) =>
      forallb initOk tr = true /\ handleCalls tr = devices
  | (Panic e, tr, _) =>
      exists pre ev format args,
        tr = pre ++ [ev; LogPrintf format args] /\
        initFailure ev = Some e /\
        snapshotOfEvent (LogPrintf format args) = [] /\
        forallb initOk pre = true
  end.
Proof.
  induction devices as [|i rest IH]; intros w.
  - cbn. auto.
  - cbn [initialize].
    unfold bind, DeviceHandleByIndex, SetPersistenceMode, SetComputeMode, call, logPrintf, ret.
    destruct (gonvml.DeviceHandleByIndex (nvml env) i w) as [[dev [e|]] w1]; cbn [fst snd app].
    { exists [], (CallDeviceHandleByIndex i dev (Some e)). do 2 eexists.
      repeat split; reflexivity. }
    destruct (gonvml.SetPersistenceMode (nvml env) dev nvmlFeatureEnabled w1)
      as [[e|] w2]; cbn [fst snd app].
    { exists [CallDeviceHandleByIndex i dev None],
        (CallSetPersistenceMode dev nvmlFeatureEnabled (Some e)). do 2 eexists.
      repeat split; reflexivity. }
    destruct (gonvml.SetComputeMode (nvml env) dev nvmlComputeExclusiveProcess w2)
      as [[e|] w3]; cbn [fst snd app].
    { exists [CallDeviceHandleByIndex i dev None;
              CallSetPersistenceMode dev nvmlFeatureEnabled None],
        (CallSetComputeMode dev nvmlComputeExclusiveProcess (Some e)). do 2 eexists.
      repeat split; reflexivity. }
    specialize (IH w3).
    destruct (initialize env rest w3) as [[[[]|e] tr] w4].
    + destruct IH as (Hok & Hh). split.
      * cbn. exact Hok.
      * unfold handleCalls in *. cbn. rewrite Hh. reflexivity.
    + destruct IH as (pre & ev & format & args & -> & Hf & Hlog & Hpre).
      exists (CallDeviceHandleByIndex i dev None
                :: CallSetPersistenceMode dev nvmlFeatureEnabled None
                :: CallSetComputeMode dev nvmlComputeExclusiveProcess None :: pre),
        ev, format, args.
      repeat split; auto.
Qed.

Lemma initOk_startup tr :
  forallb initOk tr = true ->
  forallb startupEvent tr = true /\ snapshots tr = [].
Proof.
  intros H. split.
  - apply forallb_forall. intros ev Hin. rewrite forallb_forall in H.
    apply H in Hin. destruct ev as [| | | | ? ? [?|] | ? ? [?|] | ? ? [?|] | | | | | | | |];
      try discriminate; reflexivity.
  - apply (flat_map_nil_forallb _ snapshotOfEvent initOk); [|assumption].
    intros ev Hev. destruct ev; try discriminate; reflexivity.
Qed.

Lemma initialize_startup devices w :
  forallb startupEvent (traceOf (initialize env devices w)) = true /\
  snapshots (traceOf (initialize env devices w)) = [].
Proof.
  pose proof (initialize_spec devices w) as H.
  destruct (initialize env devices w) as [[[[]|e] tr] w']; unfold traceOf; cbn [fst snd].
  - apply initOk_startup. tauto.
  - destruct H as (pre & ev & format & args & -> & Hf & Hlog & Hpre).
    destruct (initOk_startup _ Hpre) as (H1 & H2).
    rewrite forallb_app, snapshots_app, H1, H2.
    unfold snapshots. cbn [flat_map forallb app andb]. rewrite Hlog.
    destruct ev as [| | | | ? ? [?|] | ? ? [?|] | ? ? [?|] | | | | | | | |];
      try discriminate;
      (split; [|reflexivity]); unfold startupEvent;
      destruct args as [|[] [|]]; try discriminate; reflexivity.
Qed.

(** Any call of the initialisation that fails makes it panic with the
    error of that call. *)
Lemma initialize_failure devices w ev e :
  In ev (traceOf (initialize env devices w)) ->
  initFailure ev = Some e ->
  valueOf (initialize env devices w) = Panic e.
Proof.
  pose proof (initialize_spec devices w) as H.
  destruct (initialize env devices w) as [[[[]|e'] tr] w']; unfold traceOf, valueOf; cbn [fst snd].
  - destruct H as (Hok & _). intros Hin Hf. rewrite forallb_forall in Hok.
    apply Hok in Hin. destruct ev as [| | | | ? ? [?|] | ? ? [?|] | ? ? [?|] | | | | | | | |];
      discriminate.
  - destruct H as (pre & ev' & format & args & -> & Hf' & _ & Hpre).
    intros Hin Hf. apply in_app_or in Hin. destruct Hin as [Hin|[<-|[<-|[]]]].
    + rewrite forallb_forall in Hpre. apply Hpre in Hin.
      destruct ev as [| | | | ? ? [?|] | ? ? [?|] | ? ? [?|] | | | | | | | |];
        discriminate.
    + congruence.
    + discriminate.
Qed.

Lemma body_unfold fuel w :
  body env fuel w =
  let '((v, err), w2) := gonvml.SystemDriverVersion (nvml env) w in
  match err with
  | Some e =>
      (Returned,
       [CallSystemDriverVersion v (Some e);
        LogPrintf "Error finding nvidia driver: %v" [AErr e]], w2)
  | None =>
      let start := [CallSystemDriverVersion v None;
                    LogPrintf "Nvidia driver: %v" [AStr v]] in
      let '(r, tsel, w3) := selectDevices env w2 in
      match r with
      | Panic e => (Panicked e, start ++ tsel, w3)
      | Ok devices =>
          let '(r', tinit, w4) := initialize env devices w3 in
          match r' with
          | Panic e => (Panicked e, start ++ tsel ++ tinit, w4)
          | Ok _ =>
              let '(o, tloop, w5) := monitor env fuel devices w4 in
              (o, start ++ tsel ++ tinit ++ tloop, w5)
          end
      end
  end.
Proof.
  unfold body, bind, SystemDriverVersion, call, logPrintf, ret.
  destruct (gonvml.SystemDriverVersion (nvml env) w) as [[v [e|]] w2]; cbn [fst snd app];
    [reflexivity|].
  destruct (selectDevices env w2) as [[[devices|e] tsel] w3]; cbn [fst snd app].
  - destruct (initialize env devices w3) as [[[[]|e] tinit] w4]; cbn [fst snd app].
    + destruct (monitor env fuel devices w4) as [[o tloop] w5]. reflexivity.
    + rewrite app_nil_r. reflexivity.
  - rewrite app_nil_r. reflexivity.
Qed.

Lemma monitorGPU_unfold fuel w :
  monitorGPU env fuel w =
  let '(err, w1) := gonvml.Initialize (nvml env) w in
  match err with
  | Some e =>
      (Panicked e,
       [CallInitialize (Some e);
        LogPrintf
          "Couldn't initialize gonvml: %v. Make sure NVML is in the shared library search path."
          [AErr e]], w1)
  | None =>
      let '(o, t, w2) := body env fuel w1 in
      match o with
      | Running => (Running, CallInitialize None :: t, w2)
      | _ =>
          (o,
           CallInitialize None :: t
             ++ shutdownTrace (fst (gonvml.Shutdown (nvml env) w2)),
           snd (gonvml.Shutdown (nvml env) w2))
      end
  end.
Proof.
  unfold monitorGPU, bind, Initialize, call, logPrintf, ret.
  destruct (gonvml.Initialize (nvml env) w) as [[e|] w1]; cbn [fst snd app];
    [reflexivity|].
  destruct (body env fuel w1) as [[o t] w2].
  destruct o; rewrite ?check_Err_Shutdown; cbn [fst snd app];
    rewrite ?app_nil_r; reflexivity.
Qed.

End Startup.

Section StartupTheorems.
Context {World : Type}.
Variable env : Env World.

(** The whole run, told from device selection on. *)
Lemma monitorGPU_from_selection fuel w0 w v :
  reachesSelection env w0 w v ->
  monitorGPU env fuel w0 =
  let start := [CallInitialize None; CallSystemDriverVersion v None;
                LogPrintf "Nvidia driver: %v" [AStr v]] in
  let '(r, tsel, w3) := selectDevices env w in
  match r with
  | Panic e =>
      (Panicked e,
       start ++ tsel ++ shutdownTrace (fst (gonvml.Shutdown (nvml env) w3)),
       snd (gonvml.Shutdown (nvml env) w3))
  | Ok devices =>
      let '(r', tinit, w4) := initialize env devices w3 in
      match r' with
      | Panic e =>
          (Panicked e,
           start ++ tsel ++ tinit ++ shutdownTrace (fst (gonvml.Shutdown (nvml env) w4)),
           snd (gonvml.Shutdown (nvml env) w4))
      | Ok _ =>
          let '(o, tloop, w5) := monitor env fuel devices w4 in
          match o with
          | Running => (Running, start ++ tsel ++ tinit ++ tloop, w5)
          | _ =>
              (o,
               start ++ tsel ++ tinit ++ tloop
                 ++ shutdownTrace (fst (gonvml.Shutdown (nvml env) w5)),
               snd (gonvml.Shutdown (nvml env) w5))
          end
      end
  end.
Proof.
  intros (w1 & Hinit & Hdrv).
  rewrite monitorGPU_unfold, Hinit, body_unfold, Hdrv. cbv zeta.
  destruct (selectDevices env w) as [[[devices|e] tsel] w3].
  - destruct (initialize env devices w3) as [[[[]|e] tinit] w4].
    + destruct (monitor env fuel devices w4) as [[o tloop] w5].
      destruct o; cbn [app]; rewrite <- ?app_assoc; reflexivity.
    + cbn [app]. rewrite <- ?app_assoc. reflexivity.
  - cbn [app]. rewrite <- ?app_assoc. reflexivity.
Qed.

Lemma shutdownTrace_quiet err :
  handleCalls (shutdownTrace err) = [] /\ snapshots (shutdownTrace err) = [] /\
  forallb startupEvent (shutdownTrace err) = true /\
  forallb notSelect (shutdownTrace err) = true.
Proof. destruct err; cbn; auto. Qed.

(** A panic of the selection is fatal: no device is touched, no
    snapshot is emitted. *)
Lemma selection_panic_fatal fuel w0 w v e tsel w3 :
  reachesSelection env w0 w v ->
  selectDevices env w = (Panic e, tsel, w3) ->
  valueOf (monitorGPU env fuel w0) = Panicked e /\
  handleCalls (traceOf (monitorGPU env fuel w0)) = [] /\
  snapshots (traceOf (monitorGPU env fuel w0)) = [].
Proof.
  intros Hr Hs. rewrite (monitorGPU_from_selection fuel w0 w v Hr), Hs. cbv zeta.
  unfold valueOf, traceOf; cbn [fst snd].
  pose proof (selectDevices_startup env w) as (_ & Hh & Hsn).
  rewrite Hs in Hh, Hsn. unfold traceOf in Hh, Hsn; cbn [fst snd] in Hh, Hsn.
  destruct (shutdownTrace_quiet (fst (gonvml.Shutdown (nvml env) w3))) as (H1 & H2 & _).
  rewrite !handleCalls_app, !snapshots_app, Hh, Hsn, H1, H2. auto.
Qed.

(** C10. When the session comes up and the driver-version query fails,
    [monitorGPU] logs the failure and returns: it does not panic, it
    makes no call that counts, selects or configures a device, it emits
    no snapshot, and the deferred shutdown of the session still runs. *)
Theorem driver_version_failure_returns fuel w w1 v e w2 :
  gonvml.Initialize (nvml env) w = (None, w1) ->
  gonvml.SystemDriverVersion (nvml env) w1 = ((v, Some e), w2) ->
  monitorGPU env fuel w =
  (Returned,
   [CallInitialize None;
    CallSystemDriverVersion v (Some e);
    LogPrintf "Error finding nvidia driver: %v" [AErr e]]
     ++ shutdownTrace (fst (gonvml.Shutdown (nvml env) w2)),
   snd (gonvml.Shutdown (nvml env) w2)).
Proof.
  intros Hinit Hdrv.
  rewrite monitorGPU_unfold, Hinit, body_unfold, Hdrv. reflexivity.
Qed.

(** C7. With an empty [devices] setting the selection asks the provider
    for the device count.  If the query fails, the program logs and
    panics, having touched no device.  Otherwise the selected devices
    are exactly the indices 0 to count - 1 in increasing order, one
    provider call having been made; the count is taken in the range of
    Go's [int], to which the loop bound is converted. *)
Theorem empty_list_selects_all_detected w count err w' :
  GetStringSlice env "devices" = [] ->
  gonvml.DeviceCount (nvml env) w = ((count, err), w') ->
  (err = None -> 0 <= count < 2 ^ 63) ->
  match err with
  | None =>
      selectDevices env w = (Ok (indices count), [CallDeviceCount count None], w')
  | Some e =>
      selectDevices env w =
      (Panic e,
       [CallDeviceCount count (Some e);
        LogPrintf "Error counting nvidia devices: %v" [AErr e]], w') /\
      forall fuel w0 v,
        reachesSelection env w0 w v ->
        valueOf (monitorGPU env fuel w0) = Panicked e /\
        handleCalls (traceOf (monitorGPU env fuel w0)) = [] /\
        snapshots (traceOf (monitorGPU env fuel w0)) = []
  end.
Proof.
  intros Hflag Hcount Hrange.
  assert (Hsel : selectDevices env w =
                 match err with
                 | None => (Ok (indices count), [CallDeviceCount count None], w')
                 | Some e =>
                     (Panic e,
                      [CallDeviceCount count (Some e);
                       LogPrintf "Error counting nvidia devices: %v" [AErr e]], w')
                 end).
  { unfold selectDevices. rewrite Hflag. cbn [List.length Nat.eqb].
    unfold bind, DeviceCount, call, logPrintf, ret. rewrite Hcount.
    destruct err as [e|]; cbn [fst snd app]; [reflexivity|].
    specialize (Hrange eq_refl).
    rewrite (int_of_uint_small count Hrange).
    rewrite countLoop_spec by lia.
    cbn [app]. rewrite Z.sub_0_r. reflexivity. }
  destruct err as [e|]; [|exact Hsel].
  split; [exact Hsel|].
  intros fuel w0 v Hr.
  exact (selection_panic_fatal fuel w0 w v e _ _ Hr Hsel).
Qed.

(** C8. With a non-empty [devices] setting no provider call is made to
    select.  If every entry denotes an index (a non-empty string of
    decimal digits whose value fits in 64 bits), the selected devices
    are exactly the numbers the entries write, in the order given.
    Otherwise the first entry that does not convert is logged and the
    program panics with the error of the conversion: no device is
    touched, so no part of the list is used. *)
Theorem explicit_list_selects_parsed_indices w l :
  GetStringSlice env "devices" = l ->
  l <> [] ->
  (firstUnparsable l = None <-> Forall parsable l) /\
  match firstUnparsable l with
  | None =>
      selectDevices env w = (Ok (map decimal l), [], w) /\
      Forall (fun n => 0 <= n < uintModulus) (map decimal l)
  | Some (s, e) =>
      In s l /\ ~ parsable s /\
      selectDevices env w =
      (Panic e, [LogPrintf "Invalid devices entry %s: %v" [AStr s; AErr e]], w) /\
      forall fuel w0 v,
        reachesSelection env w0 w v ->
        valueOf (monitorGPU env fuel w0) = Panicked e /\
        handleCalls (traceOf (monitorGPU env fuel w0)) = [] /\
        snapshots (traceOf (monitorGPU env fuel w0)) = []
  end.
Proof.
  intros Hflag Hne.
  split; [apply firstUnparsable_None|].
  assert (Hsel : selectDevices env w =
                 match firstUnparsable l with
                 | None => (Ok (map decimal l), [], w)
                 | Some (s, e) =>
                     (Panic e,
                      [LogPrintf "Invalid devices entry %s: %v" [AStr s; AErr e]], w)
                 end).
  { unfold selectDevices. rewrite Hflag. cbv zeta.
    destruct l as [|s rest]; [congruence|]. cbn [List.length Nat.eqb].
    rewrite parseLoop_spec. reflexivity. }
  destruct (firstUnparsable l) as [[s e]|] eqn:Hfirst.
  - assert (Hs : In s l /\ ~ parsable s).
    { clear Hsel Hflag Hne. revert Hfirst.
      induction l as [|s' rest IH]; cbn; [discriminate|].
      destruct (strconv.ParseUint s') as [u [e'|]] eqn:Hp; cbn.
      - intros H; inversion H; subst. split; [auto|].
        intros Hpar. apply (proj1 (ParseUint_spec s)) in Hpar. congruence.
      - intros H. destruct (IH H). auto. }
    destruct Hs as (Hin & Hnot).
    repeat split; try assumption.
    all: intros; eapply selection_panic_fatal; eauto.
  - split; [exact Hsel|].
    apply firstUnparsable_None in Hfirst.
    apply Forall_map. eapply Forall_impl; [|exact Hfirst].
    intros s Hpar. pose proof (proj1 (ParseUint_spec s) Hpar) as Hp.
    apply (proj2 (ParseUint_spec s)) in Hp. tauto.
Qed.

(** C5. When the session is up, the driver has answered and the devices
    are selected, any call of the initialisation that fails - resolving
    a handle, enabling persistence mode or setting the compute mode to
    exclusive process, for any of the devices it gets to - makes
    [monitorGPU] panic with that error.  The sampling loop never
    starts: the run reads no clock, makes no metric read, never waits
    in [select] and emits no snapshot. *)
Theorem initialisation_failure_is_fatal fuel w0 w v devices tsel w3 ev e :
  reachesSelection env w0 w v ->
  selectDevices env w = (Ok devices, tsel, w3) ->
  In ev (traceOf (initialize env devices w3)) ->
  initFailure ev = Some e ->
  valueOf (initialize env devices w3) = Panic e /\
  valueOf (monitorGPU env fuel w0) = Panicked e /\
  forallb startupEvent (traceOf (monitorGPU env fuel w0)) = true /\
  snapshots (traceOf (monitorGPU env fuel w0)) = [].
Proof.
  intros Hr Hs Hin Hf.
  pose proof (initialize_failure env devices w3 ev e Hin Hf) as Hp.
  split; [exact Hp|].
  rewrite (monitorGPU_from_selection fuel w0 w v Hr), Hs. cbv zeta.
  pose proof (initialize_startup env devices w3) as (Hi1 & Hi2).
  pose proof (selectDevices_startup env w) as (Hs1 & _ & Hs2).
  rewrite Hs in Hs1, Hs2.
  destruct (initialize env devices w3) as [[r tinit] w4].
  unfold valueOf, traceOf in *; cbn [fst snd] in *. subst r. cbv beta iota.
  cbn [fst snd].
  destruct (shutdownTrace_quiet (fst (gonvml.Shutdown (nvml env) w4)))
    as (_ & H2 & H3 & _).
  rewrite !forallb_app, !snapshots_app, Hs1, Hs2, Hi1, Hi2, H2, H3. auto.
Qed.

End StartupTheorems.

Section Traces.

Lemma startup_notSelect tr : forallb startupEvent tr = true -> forallb notSelect tr = true.
Proof.
  intros H. apply forallb_forall. intros ev Hin. rewrite forallb_forall in H.
  apply H in Hin. destruct ev; try discriminate; reflexivity.
Qed.

Lemma startup_snapshots tr : forallb startupEvent tr = true -> snapshots tr = [].
Proof.
  apply flat_map_nil_forallb. intros ev H.
  destruct ev as [| | | | | | | | | | | | |? [|[] [|]]|]; try discriminate; reflexivity.
Qed.

Lemma afterCancel_quiet a b :
  forallb notSelect a = true -> afterCancel (a ++ b) = afterCancel b.
Proof.
  induction a as [|ev a IH]; cbn [app forallb]; [reflexivity|].
  intros H. apply andb_prop in H. destruct H as [H1 H2].
  destruct ev; try discriminate; cbn [afterCancel]; auto.
Qed.

Lemma afterCancel_nil a : forallb notSelect a = true -> afterCancel a = [].
Proof.
  intros H. rewrite <- (app_nil_r a). rewrite afterCancel_quiet by assumption. reflexivity.
Qed.

Lemma isCancel_quiet a : forallb notSelect a = true -> existsb isCancel a = false.
Proof.
  induction a as [|ev a IH]; cbn [existsb forallb]; [reflexivity|].
  intros H. apply andb_prop in H. destruct H as [H1 H2].
  rewrite (IH H2). destruct ev; try discriminate; reflexivity.
Qed.

Lemma ticksRun_app a b : ticksRun (a ++ b) = (ticksRun a + ticksRun b)%nat.
Proof. unfold ticksRun. rewrite filter_app, length_app. reflexivity. Qed.

Lemma ticksRun_quiet a : forallb notSelect a = true -> ticksRun a = 0%nat.
Proof.
  unfold ticksRun. induction a as [|ev a IH]; cbn [filter forallb]; [reflexivity|].
  intros H. apply andb_prop in H. destruct H as [H1 H2].
  unfold notSelect in H1. destruct (isSelect ev); [discriminate|]. auto.
Qed.

(** Where a [select] can stand in a list that begins with a stretch
    free of them. *)
Lemma split_select a : forall x b t1 y t2,
  forallb notSelect a = true -> isSelect y = true ->
  a ++ x :: b = t1 ++ y :: t2 ->
  (t1 = a /\ y = x /\ t2 = b) \/ (exists c, t1 = a ++ x :: c /\ b = c ++ y :: t2).
Proof.
  induction a as [|h a IH]; intros x b t1 y t2 Ha Hy Heq.
  - destruct t1 as [|z c]; cbn in Heq; inversion Heq; subst.
    + left. auto.
    + right. exists c. auto.
  - cbn [forallb] in Ha. apply andb_prop in Ha. destruct Ha as [Hh Ha].
    destruct t1 as [|z c]; cbn in Heq; inversion Heq; subst.
    + unfold notSelect in Hh. rewrite Hy in Hh. discriminate.
    + destruct (IH _ _ _ _ _ Ha Hy H1) as [(-> & -> & ->)|(c' & -> & ->)].
      * left. auto.
      * right. exists c'. auto.
Qed.

(** In the trace of the loop a [select] that takes [<-ctx.Done()] comes
    after a whole number of ticks and is the last event. *)
Lemma loopTrace_cancel devices o tr :
  loopTrace devices o tr ->
  forall t1 timer t2,
    tr = t1 ++ Select timer true :: t2 ->
    t2 = [] /\ o = Returned /\
    handleCalls t1 = List.concat (repeat devices (S (ticksRun t1))).
Proof.
  induction 1 as [|blk Hblk|blk o tr Hblk Hloop IH]; intros t1 timer t2 Heq.
  - destruct t1; discriminate.
  - destruct (tickBlock_facts _ _ Hblk) as (Hh & Hq & _).
    destruct (split_select blk _ _ t1 (Select timer true) t2 Hq eq_refl Heq)
      as [(-> & _ & ->)|(c & _ & Hc)].
    + rewrite (ticksRun_quiet _ Hq). cbn. rewrite app_nil_r. auto.
    + destruct c; discriminate.
  - destruct (tickBlock_facts _ _ Hblk) as (Hh & Hq & _).
    destruct (split_select blk _ _ t1 (Select timer true) t2 Hq eq_refl Heq)
      as [(_ & Hx & _)|(c & -> & Hc)]; [discriminate|].
    destruct (IH _ _ _ Hc) as (-> & -> & Hrest).
    repeat split.
    rewrite handleCalls_app, Hh. change (Select gpuPeriod false :: c)
      with ([Select gpuPeriod false] ++ c).
    rewrite handleCalls_app, !ticksRun_app, (ticksRun_quiet _ Hq), Hrest.
    cbn. reflexivity.
Qed.

Lemma loopTrace_handleCalls devices o tr :
  loopTrace devices o tr ->
  handleCalls tr = List.concat (repeat devices (ticksRun tr)).
Proof.
  induction 1 as [|blk Hblk|blk o tr Hblk Hloop IH].
  - reflexivity.
  - destruct (tickBlock_facts _ _ Hblk) as (Hh & Hq & _).
    rewrite handleCalls_app, ticksRun_app, Hh, (ticksRun_quiet _ Hq).
    cbn. rewrite app_nil_r. reflexivity.
  - destruct (tickBlock_facts _ _ Hblk) as (Hh & Hq & _).
    change (Select gpuPeriod false :: tr) with ([Select gpuPeriod false] ++ tr).
    rewrite !handleCalls_app, !ticksRun_app, Hh, (ticksRun_quiet _ Hq), IH.
    cbn. reflexivity.
Qed.

Lemma loopTrace_afterCancel devices o tr :
  loopTrace devices o tr ->
  forall post,
    forallb notSelect post = true ->
    (existsb isCancel tr = false /\ afterCancel (tr ++ post) = []) \/
    (existsb isCancel tr = true /\ afterCancel (tr ++ post) = post /\ o = Returned).
Proof.
  induction 1 as [|blk Hblk|blk o tr Hblk Hloop IH]; intros post Hpost.
  - left. split; [reflexivity|]. apply afterCancel_nil. assumption.
  - right. destruct (tickBlock_facts _ _ Hblk) as (_ & Hq & _).
    rewrite existsb_app, (isCancel_quiet _ Hq), <- app_assoc, afterCancel_quiet by assumption.
    cbn. auto.
  - destruct (tickBlock_facts _ _ Hblk) as (_ & Hq & _).
    rewrite existsb_app, (isCancel_quiet _ Hq), <- app_assoc, afterCancel_quiet by assumption.
    cbn [app afterCancel existsb isCancel orb]. apply IH. assumption.
Qed.

End Traces.

Section LoopTheorems.
Context {World : Type}.
Variable env : Env World.

(** A run is a startup stretch that resolves the handles of the
    selected devices, then the ticks of the loop, then the deferred
    shutdown if the run has ended. *)
Lemma monitorGPU_structure fuel w :
  exists devices pre tloop post o,
    traceOf (monitorGPU env fuel w) = pre ++ tloop ++ post /\
    forallb startupEvent pre = true /\
    handleCalls pre = devices /\
    (post = [] \/ exists err, post = shutdownTrace err) /\
    loopTrace devices o tloop /\
    (tloop <> [] -> valueOf (monitorGPU env fuel w) = o).
Proof.
  rewrite monitorGPU_unfold.
  destruct (gonvml.Initialize (nvml env) w) as [[e|] w1].
  { eexists _, _, [], [], Running. unfold traceOf, valueOf; cbn [fst snd].
    split; [rewrite !app_nil_r; reflexivity|].
    repeat split; auto; try constructor. congruence. }
  rewrite body_unfold.
  destruct (gonvml.SystemDriverVersion (nvml env) w1) as [[v [e|]] w2].
  { exists [],
      [CallInitialize None; CallSystemDriverVersion v (Some e);
       LogPrintf "Error finding nvidia driver: %v" [AErr e]],
      [], (shutdownTrace (fst (gonvml.Shutdown (nvml env) w2))), Running.
    unfold traceOf, valueOf; cbn [fst snd].
    split; [reflexivity|].
    split; [reflexivity|split; [reflexivity|]].
    split; [right; eauto|]. split; [constructor|congruence]. }
  cbv zeta.
  pose proof (selectDevices_startup env w2) as (Hs1 & Hs2 & _).
  destruct (selectDevices env w2) as [[[devices|e] tsel] w3];
    unfold traceOf in Hs1, Hs2; cbn [fst snd] in Hs1, Hs2.
  2: { eexists _,
         (CallInitialize None
            :: [CallSystemDriverVersion v None; LogPrintf "Nvidia driver: %v" [AStr v]]
            ++ tsel),
         [], (shutdownTrace (fst (gonvml.Shutdown (nvml env) w3))), Running.
       unfold traceOf, valueOf; cbn [fst snd].
       split; [cbn [app]; rewrite <- ?app_assoc; reflexivity|].
       split; [cbn [app forallb]; rewrite Hs1; reflexivity|].
       split; [reflexivity|]. split; [right; eauto|].
       split; [constructor|congruence]. }
  pose proof (initialize_spec env devices w3) as Hi.
  pose proof (initialize_startup env devices w3) as (Hi1 & _).
  destruct (initialize env devices w3) as [[[[]|e] tinit] w4];
    unfold traceOf in Hi1; cbn [fst snd] in Hi1.
  2: { eexists _,
         (CallInitialize None
            :: [CallSystemDriverVersion v None; LogPrintf "Nvidia driver: %v" [AStr v]]
            ++ tsel ++ tinit),
         [], (shutdownTrace (fst (gonvml.Shutdown (nvml env) w4))), Running.
       unfold traceOf, valueOf; cbn [fst snd].
       split; [cbn [app]; rewrite <- ?app_assoc; reflexivity|].
       split; [cbn [app forallb]; rewrite forallb_app, Hs1, Hi1; reflexivity|].
       split; [reflexivity|]. split; [right; eauto|].
       split; [constructor|congruence]. }
  destruct Hi as (_ & Hh).
  pose proof (monitor_loopTrace env fuel devices w4) as Hloop.
  destruct (monitor env fuel devices w4) as [[o tloop] w5].
  unfold traceOf, valueOf in Hloop; cbn [fst snd] in Hloop.
  exists devices,
    (CallInitialize None
       :: [CallSystemDriverVersion v None; LogPrintf "Nvidia driver: %v" [AStr v]]
       ++ tsel ++ tinit),
    tloop.
  assert (Hpre : forallb startupEvent
                   (CallInitialize None
                      :: [CallSystemDriverVersion v None;
                          LogPrintf "Nvidia driver: %v" [AStr v]] ++ tsel ++ tinit) = true).
  { cbn [app forallb]. rewrite forallb_app, Hs1, Hi1. reflexivity. }
  assert (Hhc : handleCalls
                  (CallInitialize None
                     :: [CallSystemDriverVersion v None;
                         LogPrintf "Nvidia driver: %v" [AStr v]] ++ tsel ++ tinit) = devices).
  { cbn [app]. unfold handleCalls in *. cbn [flat_map handleOfEvent app].
    rewrite flat_map_app, Hs2, Hh. reflexivity. }
  destruct o.
  - exists (shutdownTrace (fst (gonvml.Shutdown (nvml env) w5))), Returned.
    unfold traceOf, valueOf; cbn [fst snd].
    split; [cbn [app]; rewrite <- !app_assoc; reflexivity|]. eauto 10.
  - exists (shutdownTrace (fst (gonvml.Shutdown (nvml env) w5))), (Panicked e).
    unfold traceOf, valueOf; cbn [fst snd].
    split; [cbn [app]; rewrite <- !app_assoc; reflexivity|]. eauto 10.
  - exists [], Running.
    unfold traceOf, valueOf; cbn [fst snd].
    split; [cbn [app]; rewrite <- !app_assoc, app_nil_r; reflexivity|]. eauto 10.
Qed.

(** C9. The loop works on one list of devices, the one handed to it
    when initialisation completed: every tick of every run consists of
    one pass per device of that list, in the order of the list, each
    pass resolving the handle of its own device and none other, one
    after the other; and the handles resolved at startup are those of
    the same list. *)
Theorem monitored_devices_are_fixed :
  (forall fuel devices w,
      loopTrace devices (valueOf (monitor env fuel devices w))
                (traceOf (monitor env fuel devices w)) /\
      handleCalls (traceOf (monitor env fuel devices w)) =
      List.concat (repeat devices (ticksRun (traceOf (monitor env fuel devices w))))) /\
  (forall fuel w,
      exists devices pre tloop post o,
        traceOf (monitorGPU env fuel w) = pre ++ tloop ++ post /\
        forallb startupEvent pre = true /\
        forallb startupEvent post = true /\
        handleCalls pre = devices /\
        handleCalls post = [] /\
        loopTrace devices o tloop /\
        handleCalls tloop = List.concat (repeat devices (ticksRun tloop))).
Proof.
  split.
  - intros fuel devices w.
    pose proof (monitor_loopTrace env fuel devices w) as H.
    split; [exact H|]. apply (loopTrace_handleCalls _ _ _ H).
  - intros fuel w.
    destruct (monitorGPU_structure fuel w)
      as (devices & pre & tloop & post & o & Htr & Hpre & Hh & Hpost & Hloop & _).
    exists devices, pre, tloop, post, o.
    repeat split; try assumption.
    + destruct Hpost as [->|(err & ->)]; [reflexivity|].
      apply shutdownTrace_quiet.
    + destruct Hpost as [->|(err & ->)]; [reflexivity|].
      apply shutdownTrace_quiet.
    + apply (loopTrace_handleCalls _ _ _ Hloop).
Qed.

End LoopTheorems.

Section Cancellation.
Context {World : Type}.
Variable env : Env World.
Variable ctxDone : World -> bool.
Hypothesis honoured : selectHonoursDone ctxDone env.
Hypothesis sticks : cancellationSticks ctxDone env.

Lemma step_sticks {A} (f : World -> A * World) w a w' :
  (forall w, ctxDone w = true -> ctxDone (snd (f w)) = true) ->
  f w = (a, w') -> ctxDone w = true -> ctxDone w' = true.
Proof. intros Hf Heq Hw. specialize (Hf w Hw). rewrite Heq in Hf. exact Hf. Qed.

(** Carries the cancelled context over the calls already run. *)
Ltac carry :=
  destruct sticks as (S1 & S2 & S3 & S4 & S5 & S6);
  repeat match goal with
  | Hw : ctxDone ?w = true, Heq : NowUnix env ?w = (_, ?w') |- _ =>
      pose proof (step_sticks _ w _ w' S1 Heq Hw); clear Heq
  | Hw : ctxDone ?w = true,
    Heq : gonvml.DeviceHandleByIndex (nvml env) ?i ?w = (_, ?w') |- _ =>
      pose proof (step_sticks _ w _ w' (S2 i) Heq Hw); clear Heq
  | Hw : ctxDone ?w = true, Heq : gonvml.readUint (nvml env) ?m ?d ?w = (_, ?w') |- _ =>
      pose proof (step_sticks _ w _ w' (S3 m d) Heq Hw); clear Heq
  | Hw : ctxDone ?w = true, Heq : gonvml.readString (nvml env) ?m ?d ?w = (_, ?w') |- _ =>
      pose proof (step_sticks _ w _ w' (S4 m d) Heq Hw); clear Heq
  | Hw : ctxDone ?w = true,
    Heq : gonvml.readAverage (nvml env) ?m ?d ?s ?w = (_, ?w') |- _ =>
      pose proof (step_sticks _ w _ w' (S5 m d s) Heq Hw); clear Heq
  | Hw : ctxDone ?w = true, Heq : gonvml.MemoryInfo (nvml env) ?d ?w = (_, ?w') |- _ =>
      pose proof (step_sticks _ w _ w' (S6 d) Heq Hw); clear Heq
  end.

Lemma devicePass_sticks i w :
  ctxDone w = true -> ctxDone (worldOf (devicePass env i w)) = true.
Proof.
  intros Hw.
  remember (devicePass env i w) as r eqn:Hr.
  exec_pass r Hr; carry; assumption.
Qed.

Lemma tick_sticks devices : forall w,
  ctxDone w = true -> ctxDone (worldOf (tick env devices w)) = true.
Proof.
  induction devices as [|i rest IH]; intros w Hw; [exact Hw|].
  rewrite tick_unfold. unfold worldOf at 1. cbn [snd].
  apply IH. apply devicePass_sticks. exact Hw.
Qed.

Lemma tick_app pre : forall post w,
  tick env (pre ++ post) w =
  (tt,
   traceOf (tick env pre w) ++ traceOf (tick env post (worldOf (tick env pre w))),
   worldOf (tick env post (worldOf (tick env pre w)))).
Proof.
  induction pre as [|i rest IH]; intros post w.
  - cbn [app tick]. unfold ret, traceOf, worldOf. cbn [fst snd app].
    destruct (tick env post w) as [[[] t] w']. reflexivity.
  - cbn [app]. rewrite !tick_unfold, IH.
    unfold traceOf, worldOf. cbn [fst snd]. rewrite app_assoc. reflexivity.
Qed.

(** C4. The context is looked at in one place, the [select] that
    follows the passes of a tick.  In the loop, once a [select] has
    taken [<-ctx.Done()] nothing follows: the loop has returned, after a
    whole number of ticks each over all the devices.  In a run of
    [monitorGPU], what follows that [select] resolves no handle and
    emits no snapshot.  And a cancellation that has come by the end of
    any pass of a tick lets the tick go through all its devices as it
    would have without it; the [select] that follows then takes
    [<-ctx.Done()] and the loop returns without another tick. *)
Theorem cancellation_is_observed_after_the_pass :
  (forall fuel devices w t1 timer t2,
      traceOf (monitor env fuel devices w) = t1 ++ Select timer true :: t2 ->
      t2 = [] /\
      valueOf (monitor env fuel devices w) = Returned /\
      handleCalls t1 = List.concat (repeat devices (S (ticksRun t1)))) /\
  (forall fuel w,
      snapshots (afterCancel (traceOf (monitorGPU env fuel w))) = [] /\
      handleCalls (afterCancel (traceOf (monitorGPU env fuel w))) = [] /\
      (existsb isCancel (traceOf (monitorGPU env fuel w)) = true ->
       valueOf (monitorGPU env fuel w) = Returned)) /\
  (forall fuel pre post w,
      ctxDone (worldOf (tick env pre w)) = true ->
      monitor env (S fuel) (pre ++ post) w =
      (Returned,
       traceOf (tick env (pre ++ post) w) ++ [Select gpuPeriod true],
       snd (selectDone env gpuPeriod (worldOf (tick env (pre ++ post) w))))).
Proof.
  split; [|split].
  - intros fuel devices w t1 timer t2 Heq.
    exact (loopTrace_cancel _ _ _ (monitor_loopTrace env fuel devices w) _ _ _ Heq).
  - intros fuel w.
    destruct (monitorGPU_structure env fuel w)
      as (devices & pre & tloop & post & o & -> & Hpre & _ & Hpost & Hloop & Hval).
    assert (Hq : forallb notSelect post = true /\ snapshots post = [] /\
                 handleCalls post = []).
    { destruct Hpost as [->|(err & ->)]; [auto|].
      destruct (shutdownTrace_quiet err) as (H1 & H2 & _ & H4). auto. }
    destruct Hq as (Hq & Hsn & Hhc).
    pose proof (startup_notSelect _ Hpre) as Hpq.
    rewrite afterCancel_quiet by assumption.
    rewrite existsb_app, (isCancel_quiet _ Hpq), existsb_app, (isCancel_quiet _ Hq).
    rewrite orb_false_r. cbn [orb].
    destruct (loopTrace_afterCancel _ _ _ Hloop post Hq)
      as [(Hno & ->)|(Hyes & -> & ->)].
    + rewrite Hno. repeat split; discriminate.
    + repeat split; try assumption. intros _. apply Hval.
      intros ->. discriminate.
  - intros fuel pre post w Hdone.
    rewrite monitor_unfold. cbv zeta.
    assert (Hend : ctxDone (worldOf (tick env (pre ++ post) w)) = true).
    { rewrite tick_app. unfold worldOf at 1. cbn [snd]. apply tick_sticks. exact Hdone. }
    pose proof (honoured gpuPeriod _ Hend) as Hsel.
    destruct (selectDone env gpuPeriod (worldOf (tick env (pre ++ post) w))) as [done w2].
    cbn [fst snd] in *. subst done. reflexivity.
Qed.

End Cancellation.

(** ** The theorems at work on the scripted environment *)

(** Finds an event in a concrete trace. *)
Ltac pick := vm_compute; repeat first [ left; reflexivity | right ].

Example ParseUint_digits : strconv.ParseUint "007" = (7, None).
Proof. reflexivity. Qed.

Example ParseUint_largest :
  strconv.ParseUint "18446744073709551615" = (18446744073709551615, None).
Proof. reflexivity. Qed.

Example ParseUint_out_of_range :
  strconv.ParseUint "18446744073709551616"
  = (18446744073709551615, Some (NumError "ParseUint" "18446744073709551616" ErrRange)).
Proof. reflexivity. Qed.

Example ParseUint_sign :
  strconv.ParseUint "-1" = (0, Some (NumError "ParseUint" "-1" ErrSyntax)).
Proof. reflexivity. Qed.

Example select_0_2 :
  selectDevices (Fake.env ["0"; "2"] 1000) 2%nat = (Ok [0; 2], [], 2%nat).
Proof. reflexivity. Qed.

Example select_abc :
  selectDevices (Fake.env ["0"; "abc"] 1000) 2%nat
  = (Panic (NumError "ParseUint" "abc" ErrSyntax),
     [LogPrintf "Invalid devices entry %s: %v"
        [AStr "abc"; AErr (NumError "ParseUint" "abc" ErrSyntax)]],
     2%nat).
Proof. reflexivity. Qed.

Example run_two_devices_one_tick :
  valueOf (monitorGPU (Fake.env [] 60) 3 0%nat) = Returned /\
  handleCalls (traceOf (monitorGPU (Fake.env [] 60) 3 0%nat)) = [0; 1; 0; 1] /\
  List.length (snapshots (traceOf (monitorGPU (Fake.env [] 60) 3 0%nat))) = 2%nat.
Proof. vm_compute. auto. Qed.

(** The UUID read of device 0 fails: the pass is abandoned. *)
Lemma identity_failure_witness :
  let ev := CallString gonvml.UUID (gonvml.Build_Device 4096) "" (Some Fake.unknownError) in
  In ev (traceOf (devicePass Fake.uuidFails 0 0%nat)) /\
  identityFailure ev = true /\
  snapshots (traceOf (devicePass Fake.uuidFails 0 0%nat)) = [].
Proof.
  intros ev.
  assert (Hin : In ev (traceOf (devicePass Fake.uuidFails 0 0%nat))).
  { pick. }
  assert (Hfail : identityFailure ev = true) by reflexivity.
  split; [exact Hin|]. split; [exact Hfail|].
  exact (proj1 (identity_failure_abandons_pass Fake.uuidFails 0 0%nat ev Hin Hfail)).
Defined.

(** The temperature read fails and hands back 0. *)
Lemma temperature_failure_witness :
  In (CallUint gonvml.Temperature (gonvml.Build_Device 4096) 0 (Some Fake.notSupported))
     (traceOf (devicePass (Fake.temperatureFails 0) 0 0%nat)) /\
  exists g,
    snapshots (traceOf (devicePass (Fake.temperatureFails 0) 0 0%nat)) = [g] /\
    Temperature g = 0 /\
    FanSpeed g = 30.
Proof.
  assert (Hin : In (CallUint gonvml.Temperature (gonvml.Build_Device 4096) 0
                             (Some Fake.notSupported))
                   (traceOf (devicePass (Fake.temperatureFails 0) 0 0%nat))).
  { pick. }
  split; [exact Hin|].
  destruct (temperature_failure_keeps_snapshot (Fake.temperatureFails 0) 0 0%nat
              (gonvml.Build_Device 4096) 0 Fake.notSupported Hin)
    as (_ & g & Hs & Ht & _ & Hg & _).
  exists g. split; [exact Hs|]. split; [exact Ht|].
  rewrite Hg. vm_compute. reflexivity.
Defined.

(** The temperature read fails and hands back 55 with its error: the
    snapshot carries 55, not 0. *)
Lemma failed_temperature_can_read_nonzero : ~ failed_temperature_reads_zero.
Proof.
  intros H.
  specialize (H Fake.World (Fake.temperatureFails 55) 0 0%nat
                (gonvml.Build_Device 4096) 55 Fake.notSupported
                (Fake.firstSnapshot (Fake.temperatureFails 55))).
  assert (H0 : Temperature (Fake.firstSnapshot (Fake.temperatureFails 55)) = 0).
  { apply H.
    - pick.
    - pick. }
  vm_compute in H0. discriminate.
Qed.

(** A healthy pass, then the same pass with one dynamic read failing. *)
Lemma failed_dynamic_read_witness :
  snapshots (traceOf (devicePass (Fake.env [] 1000) 0 0%nat))
  = [Fake.firstSnapshot (Fake.env [] 1000)] /\
  snapshots (traceOf (devicePass
                        (withFailure (DynUint gonvml.FanSpeed) Fake.notSupported
                                     (Fake.env [] 1000)) 0 0%nat))
  = [set_FanSpeed 0 (Fake.firstSnapshot (Fake.env [] 1000))].
Proof.
  assert (H : snapshots (traceOf (devicePass (Fake.env [] 1000) 0 0%nat))
              = [Fake.firstSnapshot (Fake.env [] 1000)]) by (vm_compute; reflexivity).
  split; [exact H|].
  destruct (failed_dynamic_read_frame (Fake.env [] 1000) 0 0%nat _ H) as (_ & Hinj).
  exact (proj1 (Hinj (DynUint gonvml.FanSpeed) Fake.notSupported eq_refl)).
Defined.

(** [MemoryInfo] fails: two fields of the snapshot change. *)
Lemma failed_memory_read_zeroes_two_fields : ~ failed_read_zeroes_single_field.
Proof.
  intros H.
  specialize (H Fake.World (Fake.env [] 1000) 0 0%nat DynMemoryInfo Fake.notSupported
                (Fake.firstSnapshot (Fake.env [] 1000))
                (Fake.firstSnapshot (withFailure DynMemoryInfo Fake.notSupported
                                                 (Fake.env [] 1000)))
                eq_refl).
  assert (H0 : (fieldDiffs
                  (Fake.firstSnapshot (Fake.env [] 1000))
                  (Fake.firstSnapshot (withFailure DynMemoryInfo Fake.notSupported
                                                   (Fake.env [] 1000))) <= 1)%nat).
  { apply H; vm_compute; reflexivity. }
  vm_compute in H0. lia.
Qed.

Lemma Fake_honours cancelAt : selectHonoursDone (Fake.ctxDone cancelAt) (Fake.env [] cancelAt).
Proof. intros timer w H. exact H. Qed.

Lemma Fake_sticks cancelAt : cancellationSticks (Fake.ctxDone cancelAt) (Fake.env [] cancelAt).
Proof.
  unfold cancellationSticks, Fake.ctxDone. cbn.
  repeat split; intros; apply Nat.leb_le; apply Nat.leb_le in H; lia.
Qed.

(** The context is cancelled during the pass of device 0; device 1 still
    gets its pass, and then the loop returns. *)
Lemma cancellation_witness :
  selectHonoursDone (Fake.ctxDone 20) (Fake.env [] 20) /\
  cancellationSticks (Fake.ctxDone 20) (Fake.env [] 20) /\
  Fake.ctxDone 20 0%nat = false /\
  Fake.ctxDone 20 (worldOf (tick (Fake.env [] 20) [0] 0%nat)) = true /\
  valueOf (monitor (Fake.env [] 20) 5 [0; 1] 0%nat) = Returned /\
  handleCalls (traceOf (monitor (Fake.env [] 20) 5 [0; 1] 0%nat)) = [0; 1].
Proof.
  split; [apply Fake_honours|]. split; [apply Fake_sticks|].
  split; [reflexivity|].
  assert (Hdone : Fake.ctxDone 20 (worldOf (tick (Fake.env [] 20) [0] 0%nat)) = true)
    by (vm_compute; reflexivity).
  split; [exact Hdone|].
  destruct (cancellation_is_observed_after_the_pass (Fake.env [] 20) (Fake.ctxDone 20)
              (Fake_honours 20) (Fake_sticks 20)) as (_ & _ & H).
  specialize (H 4%nat [0] [1] 0%nat Hdone).
  split; [exact (f_equal valueOf H)|]. vm_compute. reflexivity.
Defined.

(** The second device refuses the compute mode. *)
Lemma initialisation_failure_witness :
  let ev := CallSetComputeMode (gonvml.Build_Device 4097) nvmlComputeExclusiveProcess
                               (Some Fake.notSupported) in
  reachesSelection Fake.computeModeFails 0%nat 2%nat "390.48" /\
  selectDevices Fake.computeModeFails 2%nat = (Ok [0; 1], [CallDeviceCount 2 None], 3%nat) /\
  In ev (traceOf (initialize Fake.computeModeFails [0; 1] 3%nat)) /\
  initFailure ev = Some Fake.notSupported /\
  valueOf (monitorGPU Fake.computeModeFails 7 0%nat) = Panicked Fake.notSupported /\
  snapshots (traceOf (monitorGPU Fake.computeModeFails 7 0%nat)) = [].
Proof.
  intros ev.
  assert (Hr : reachesSelection Fake.computeModeFails 0%nat 2%nat "390.48")
    by (exists 1%nat; split; reflexivity).
  assert (Hs : selectDevices Fake.computeModeFails 2%nat
               = (Ok [0; 1], [CallDeviceCount 2 None], 3%nat)) by reflexivity.
  assert (Hin : In ev (traceOf (initialize Fake.computeModeFails [0; 1] 3%nat))).
  { pick. }
  assert (Hf : initFailure ev = Some Fake.notSupported) by reflexivity.
  destruct (initialisation_failure_is_fatal Fake.computeModeFails 7 0%nat 2%nat "390.48"
              [0; 1] _ 3%nat ev Fake.notSupported Hr Hs Hin Hf) as (_ & Hv & _ & Hsn).
  auto 10.
Defined.

(** Two devices are detected. *)
Lemma empty_list_witness :
  GetStringSlice (Fake.env [] 1000) "devices" = [] /\
  gonvml.DeviceCount (nvml (Fake.env [] 1000)) 2%nat = ((2, None), 3%nat) /\
  0 <= 2 < 2 ^ 63 /\
  selectDevices (Fake.env [] 1000) 2%nat = (Ok [0; 1], [CallDeviceCount 2 None], 3%nat).
Proof.
  split; [reflexivity|]. split; [reflexivity|]. split; [lia|].
  exact (empty_list_selects_all_detected (Fake.env [] 1000) 2%nat 2 None 3%nat
           eq_refl eq_refl ltac:(intros _; lia)).
Defined.

(** The setting ["0"; "2"]. *)
Lemma explicit_list_witness :
  GetStringSlice (Fake.env ["0"; "2"] 1000) "devices" = ["0"; "2"] /\
  ["0"; "2"] <> [] /\
  selectDevices (Fake.env ["0"; "2"] 1000) 2%nat = (Ok [0; 2], [], 2%nat).
Proof.
  split; [reflexivity|]. split; [discriminate|].
  exact (proj1 (proj2 (explicit_list_selects_parsed_indices
                         (Fake.env ["0"; "2"] 1000) 2%nat ["0"; "2"] eq_refl
                         ltac:(discriminate)))).
Defined.

(** The driver does not answer. *)
Lemma driver_version_failure_witness :
  gonvml.Initialize (nvml Fake.driverFails) 0%nat = (None, 1%nat) /\
  gonvml.SystemDriverVersion (nvml Fake.driverFails) 1%nat
  = (("", Some Fake.unknownError), 2%nat) /\
  monitorGPU Fake.driverFails 7 0%nat =
  (Returned,
   [CallInitialize None;
    CallSystemDriverVersion "" (Some Fake.unknownError);
    LogPrintf "Error finding nvidia driver: %v" [AErr Fake.unknownError];
    CallShutdown None],
   3%nat).
Proof.
  split; [reflexivity|]. split; [reflexivity|].
  exact (driver_version_failure_returns Fake.driverFails 7 0%nat 1%nat ""
           Fake.unknownError 2%nat eq_refl eq_refl).
Defined.

(** ** The session, the initialisation and the loop, further *)

Section SessionAndLoop.

Context {World : Type}.
Variable env : Env World.

Lemma countb_app p t1 t2 : countb p (t1 ++ t2) = (countb p t1 + countb p t2)%nat.
Proof. unfold countb. rewrite filter_app, length_app. reflexivity. Qed.

Lemma countb_none (p q : event -> bool) tr :
  (forall ev, q ev = true -> p ev = false) ->
  forallb q tr = true -> countb p tr = 0%nat.
Proof.
  intros Hpq. unfold countb. induction tr as [|ev tr IH]; cbn [forallb filter]; [reflexivity|].
  intros H. apply andb_prop in H. destruct H as [H1 H2].
  rewrite (Hpq _ H1). auto.
Qed.

Lemma forallb_weaken (p q : event -> bool) tr :
  (forall ev, p ev = true -> q ev = true) ->
  forallb p tr = true -> forallb q tr = true.
Proof.
  intros Hpq H. apply forallb_forall. intros ev Hin.
  rewrite forallb_forall in H. auto.
Qed.

Lemma identityOk_sessionFree ev : identityOk ev = true -> sessionFree ev = true.
Proof. destruct ev; try discriminate; reflexivity. Qed.

Lemma dynamicEvent_sessionFree ev : dynamicEvent ev = true -> sessionFree ev = true.
Proof. destruct ev; try discriminate; reflexivity. Qed.

Lemma identityFailure_sessionFree ev : identityFailure ev = true -> sessionFree ev = true.
Proof. destruct ev; try discriminate; reflexivity. Qed.

Lemma initOk_sessionFree ev : initOk ev = true -> sessionFree ev = true.
Proof. destruct ev; try discriminate; reflexivity. Qed.

(** A pass leaves the session alone. *)
Lemma devicePass_sessionFree i w :
  forallb sessionFree (traceOf (devicePass env i w)) = true.
Proof.
  rewrite devicePass_unfold.
  pose proof (identity_spec env i w) as Hs.
  destruct (identity env i w) as [[[[dev g0]|] t1] w1].
  - pose proof (dynamic_spec env dev g0 w1) as Hd.
    destruct (dynamic env dev g0 w1) as [[g1 t2] w2].
    destruct Hs as (Hok & _). destruct Hd as (Hdyn & _).
    unfold traceOf; cbn [fst snd].
    rewrite !forallb_app, (forallb_weaken _ _ _ identityOk_sessionFree Hok),
      (forallb_weaken _ _ _ dynamicEvent_sessionFree Hdyn). reflexivity.
  - destruct Hs as (pre & ev & format & args & e & -> & Hf & _ & _ & _ & Hpre & _).
    unfold traceOf; cbn [fst snd].
    rewrite forallb_app, (forallb_weaken _ _ _ identityOk_sessionFree Hpre).
    cbn [forallb andb]. rewrite (identityFailure_sessionFree _ Hf). reflexivity.
Qed.

Lemma tick_sessionFree devices : forall w,
  forallb sessionFree (traceOf (tick env devices w)) = true.
Proof.
  induction devices as [|i rest IH]; intros w; [reflexivity|].
  rewrite tick_unfold. unfold traceOf at 1. cbn [fst snd].
  rewrite forallb_app, devicePass_sessionFree, IH. reflexivity.
Qed.

Lemma monitor_sessionFree fuel devices : forall w,
  forallb sessionFree (traceOf (monitor env fuel devices w)) = true.
Proof.
  induction fuel as [|fuel IH]; intros w; [reflexivity|].
  rewrite monitor_unfold. cbv zeta.
  destruct (selectDone env gpuPeriod _) as [[|] w2]; unfold traceOf at 1; cbn [fst snd];
    rewrite forallb_app, tick_sessionFree; cbn [forallb andb sessionFree sessionEvent negb].
  - reflexivity.
  - apply IH.
Qed.

Lemma selectDevices_sessionFree w :
  forallb sessionFree (traceOf (selectDevices env w)) = true.
Proof.
  unfold selectDevices. cbv zeta.
  destruct (List.length _ =? 0)%nat.
  - unfold bind, DeviceCount, call.
    destruct (gonvml.DeviceCount (nvml env) w) as [[n [e|]] w']; reflexivity.
  - rewrite parseLoop_spec.
    destruct (firstUnparsable _) as [[s e]|]; reflexivity.
Qed.

Lemma initialize_sessionFree devices w :
  forallb sessionFree (traceOf (initialize env devices w)) = true.
Proof.
  pose proof (initialize_spec env devices w) as H.
  destruct (initialize env devices w) as [[[[]|e] tr] w']; unfold traceOf; cbn [fst snd].
  - apply (forallb_weaken _ _ _ initOk_sessionFree). tauto.
  - destruct H as (pre & ev & format & args & -> & Hf & _ & Hpre).
    rewrite forallb_app, (forallb_weaken _ _ _ initOk_sessionFree Hpre).
    destruct ev as [| | | | ? ? [?|] | ? ? [?|] | ? ? [?|] | | | | | | | |];
      try discriminate; reflexivity.
Qed.

Lemma body_sessionFree fuel w :
  forallb sessionFree (traceOf (body env fuel w)) = true.
Proof.
  rewrite body_unfold.
  destruct (gonvml.SystemDriverVersion (nvml env) w) as [[v [e|]] w2]; [reflexivity|].
  cbv zeta.
  pose proof (selectDevices_sessionFree w2) as Hs.
  destruct (selectDevices env w2) as [[[devices|e] tsel] w3];
    unfold traceOf in *; cbn [fst snd] in *.
  - pose proof (initialize_sessionFree devices w3) as Hi.
    destruct (initialize env devices w3) as [[[[]|e] tinit] w4];
      unfold traceOf in *; cbn [fst snd] in *.
    + pose proof (monitor_sessionFree fuel devices w4) as Hm.
      destruct (monitor env fuel devices w4) as [[o tloop] w5].
      unfold traceOf in *; cbn [fst snd] in *.
      cbn [app forallb]. rewrite !forallb_app, Hs, Hi, Hm. reflexivity.
    + cbn [app forallb]. rewrite !forallb_app, Hs, Hi. reflexivity.
  - cbn [app forallb]. rewrite Hs. reflexivity.
Qed.

(** X1. When [gonvml.Initialize] fails, [monitorGPU] logs the failure and
    panics with its error; the shutdown has not been deferred yet, so it
    is not called, and no other provider function is. *)
Theorem initialize_failure_panics_without_shutdown fuel w e w1 :
  gonvml.Initialize (nvml env) w = (Some e, w1) ->
  monitorGPU env fuel w =
  (Panicked e,
   [CallInitialize (Some e);
    LogPrintf
      "Couldn't initialize gonvml: %v. Make sure NVML is in the shared library search path."
      [AErr e]],
   w1).
Proof.
  intros H. rewrite monitorGPU_unfold, H. reflexivity.
Qed.

(** X2. The session is opened once, first of all.  It is closed once, by
    the deferred call and after everything else, exactly when it came up
    and the run has ended, by a return or by a panic; it is not closed
    when it never came up, nor while the loop is still running. *)
Theorem session_is_closed_once_when_the_run_ends fuel w :
  exists mid closing,
    traceOf (monitorGPU env fuel w)
    = CallInitialize (fst (gonvml.Initialize (nvml env) w)) :: mid ++ closing /\
    forallb sessionFree mid = true /\
    match fst (gonvml.Initialize (nvml env) w), valueOf (monitorGPU env fuel w) with
    | None, Returned | None, Panicked _ => exists err, closing = shutdownTrace err
    | _, _ => closing = []
    end.
Proof.
  rewrite monitorGPU_unfold.
  destruct (gonvml.Initialize (nvml env) w) as [[e|] w1]; cbn [fst].
  - eexists [_], []. unfold traceOf, valueOf; cbn [fst snd app]. auto.
  - pose proof (body_sessionFree fuel w1) as Hb.
    destruct (body env fuel w1) as [[o t] w2]. unfold traceOf in Hb; cbn [fst snd] in Hb.
    destruct o; unfold traceOf, valueOf; cbn [fst snd].
    + exists t, (shutdownTrace (fst (gonvml.Shutdown (nvml env) w2))). eauto.
    + exists t, (shutdownTrace (fst (gonvml.Shutdown (nvml env) w2))). eauto.
    + exists t, []. rewrite app_nil_r. auto.
Qed.

(** Initialisation, when it succeeds, has made for each device, in the
    order of the list, the three calls that configure it. *)
Lemma initialize_ok_shape devices : forall w,
  valueOf (initialize env devices w) = Ok tt ->
  exists handles,
    List.length handles = List.length devices /\
    traceOf (initialize env devices w) = flat_map configured (combine devices handles).
Proof.
  induction devices as [|i rest IH]; intros w.
  - intros _. exists []. auto.
  - cbn [initialize].
    unfold bind, DeviceHandleByIndex, SetPersistenceMode, SetComputeMode, call, logPrintf, ret.
    destruct (gonvml.DeviceHandleByIndex (nvml env) i w) as [[dev [e|]] w1]; cbn [fst snd app];
      [discriminate|].
    destruct (gonvml.SetPersistenceMode (nvml env) dev nvmlFeatureEnabled w1)
      as [[e|] w2]; cbn [fst snd app]; [discriminate|].
    destruct (gonvml.SetComputeMode (nvml env) dev nvmlComputeExclusiveProcess w2)
      as [[e|] w3]; cbn [fst snd app]; [discriminate|].
    specialize (IH w3).
    destruct (initialize env rest w3) as [[r tr] w4].
    unfold valueOf, traceOf in *; cbn [fst snd] in *.
    intros Hr. destruct (IH Hr) as (handles & Hlen & ->).
    exists (dev :: handles). split; [cbn; lia|]. reflexivity.
Qed.

(** X3. When initialisation succeeds it has made, for each selected
    device in the order of the list, exactly three calls: it resolved the
    handle of the index, enabled persistence mode (1) on that handle and
    set the compute mode to exclusive process (3) on that handle. *)
Theorem initialisation_configures_each_device_in_order devices w :
  valueOf (initialize env devices w) = Ok tt ->
  exists handles,
    List.length handles = List.length devices /\
    traceOf (initialize env devices w) = flat_map configured (combine devices handles) /\
    List.length (traceOf (initialize env devices w)) = (3 * List.length devices)%nat.
Proof.
  intros H. destruct (initialize_ok_shape devices w H) as (handles & Hlen & Htr).
  exists handles. split; [exact Hlen|]. split; [exact Htr|].
  rewrite Htr. clear Htr H. revert handles Hlen.
  induction devices as [|i rest IH]; intros [|d handles] Hlen; try discriminate.
  - reflexivity.
  - cbn [combine flat_map configured app List.length].
    rewrite (IH handles) by (cbn in Hlen; lia). lia.
Qed.


End SessionAndLoop.

Section PassAndLoop.

Context {World : Type}.
Variable env : Env World.

Lemma identityOk_not_failure ev : identityOk ev = true -> identityFailure ev = false.
Proof. intros H. apply identityOk_quiet in H. tauto. Qed.

Lemma dynamicEvent_not_failure ev : dynamicEvent ev = true -> identityFailure ev = false.
Proof. intros H. apply dynamicEvent_quiet in H. tauto. Qed.

Lemma filter_errLog (p : event -> bool) format err :
  (forall e, p (LogPrintf format [AErr e]) = false) ->
  filter p (errLog format err) = [].
Proof. intros H. destruct err; cbn; rewrite ?H; reflexivity. Qed.

(** A pass either emits its snapshot or is abandoned on one failure. *)
Lemma devicePass_balance i w :
  (List.length (snapshots (traceOf (devicePass env i w)))
   + countb identityFailure (traceOf (devicePass env i w)) = 1)%nat.
Proof.
  rewrite devicePass_unfold.
  pose proof (identity_spec env i w) as Hs.
  destruct (identity env i w) as [[[[dev g0]|] t1] w1].
  - pose proof (dynamic_spec env dev g0 w1) as Hd.
    destruct (dynamic env dev g0 w1) as [[g1 t2] w2].
    destruct Hs as (Hok & _). destruct Hd as (Hdyn & _).
    unfold traceOf; cbn [fst snd].
    rewrite !snapshots_app, !countb_app, (identityOk_snapshots _ Hok),
      (dynamicEvent_snapshots _ Hdyn),
      (countb_none _ _ _ identityOk_not_failure Hok),
      (countb_none _ _ _ dynamicEvent_not_failure Hdyn).
    reflexivity.
  - destruct Hs as (pre & ev & format & args & e & -> & Hf & _ & _ & Hlog & Hpre & _).
    unfold traceOf; cbn [fst snd].
    rewrite snapshots_app, countb_app, (identityOk_snapshots _ Hpre),
      (countb_none _ _ _ identityOk_not_failure Hpre).
    unfold snapshots, countb. cbn [flat_map filter app identityFailure]. rewrite Hlog, Hf.
    destruct ev as [| | | | ? ? [?|] | | | m ? ? [?|] | ? ? ? [?|] | | | | | |];
      try discriminate; reflexivity.
Qed.

(** X5. In every tick the snapshots emitted and the passes abandoned on a
    failed handle resolution or identity read add up to the number of
    devices: each device gets one snapshot or one failure, never both and
    never neither. *)
Theorem tick_emits_a_snapshot_or_fails_per_device devices : forall w,
  (List.length (snapshots (traceOf (tick env devices w)))
   + countb identityFailure (traceOf (tick env devices w))
   = List.length devices)%nat.
Proof.
  induction devices as [|i rest IH]; intros w; [reflexivity|].
  rewrite tick_unfold. cbn [traceOf fst snd].
  rewrite snapshots_app, countb_app, length_app.
  pose proof (devicePass_balance i w) as Hp.
  specialize (IH (worldOf (devicePass env i w))).
  cbn [List.length]. lia.
Qed.

(** X6. Every read of a pass is made on the handle this pass resolved
    for its device: a handle is not kept from the initialisation nor
    from an earlier pass. *)
Theorem reads_use_the_handle_of_their_pass i w ev d :
  In ev (traceOf (devicePass env i w)) ->
  eventDevice ev = Some d ->
  In (CallDeviceHandleByIndex i d None) (traceOf (devicePass env i w)).
Proof.
  intros Hin Hd.
  remember (devicePass env i w) as r eqn:Hr.
  exec_pass r Hr;
    in_trace Hin; subst; cbn [eventDevice] in Hd; try discriminate;
    inversion Hd; subst; right; left; reflexivity.
Qed.

(** X7. The time stamp of a snapshot is the clock reading taken at the
    very start of its pass, before the handle is resolved; the pass reads
    the clock that once. *)
Theorem snapshot_carries_the_time_its_pass_began i w g :
  In g (snapshots (traceOf (devicePass env i w))) ->
  exists d rest,
    traceOf (devicePass env i w)
    = TimeNow (TimeStamp g) :: CallDeviceHandleByIndex i d None :: rest /\
    countb isClock rest = 0%nat.
Proof.
  intros Hin.
  remember (devicePass env i w) as r eqn:Hr.
  exec_pass r Hr.
  1-8: destruct Hin.
  revert Hin. norm_trace. intros [<-|[]].
  do 2 eexists. split; [reflexivity|].
  unfold countb.
  repeat (cbn [filter isClock app];
          rewrite ?filter_app, ?filter_errLog by reflexivity).
  reflexivity.
Qed.

(** X13. A pass that emits its snapshot has made exactly 25 provider
    calls: the handle resolution, the 7 identity reads and the 17 dynamic
    reads.  A pass that emits none has made at least one and at most 8. *)
Theorem pass_makes_a_bounded_number_of_calls i w :
  (snapshots (traceOf (devicePass env i w)) <> [] ->
   countb isProviderCall (traceOf (devicePass env i w)) = 25%nat) /\
  (snapshots (traceOf (devicePass env i w)) = [] ->
   (1 <= countb isProviderCall (traceOf (devicePass env i w)) <= 8)%nat).
Proof.
  remember (devicePass env i w) as r eqn:Hr.
  exec_pass r Hr.
  1-8: split; [intros H; exfalso; apply H; reflexivity|intros _; cbn; lia].
  split.
  - intros _. unfold countb.
    repeat (cbn [filter isProviderCall app];
            rewrite ?filter_app, ?filter_errLog by reflexivity).
    reflexivity.
  - norm_trace. discriminate.
Qed.

End PassAndLoop.

Section LoopAndRun.

Context {World : Type}.
Variable env : Env World.

(** X8. With no device selected the loop still runs: each tick makes no
    provider call, reads no clock and logs nothing, and the run of the
    loop consists of its waits in [select] alone. *)
Theorem loop_over_no_device_only_waits fuel : forall w,
  forallb isSelect (traceOf (monitor env fuel [] w)) = true /\
  ticksRun (traceOf (monitor env fuel [] w))
  = List.length (traceOf (monitor env fuel [] w)).
Proof.
  induction fuel as [|fuel IH]; intros w; [split; reflexivity|].
  rewrite monitor_unfold. cbv zeta.
  change (traceOf (tick env [] w)) with (@nil event).
  change (worldOf (tick env [] w)) with w.
  destruct (selectDone env gpuPeriod w) as [[|] w2]; cbn [traceOf fst snd app].
  - split; reflexivity.
  - destruct (IH w2) as (H1 & H2). cbn [forallb isSelect andb]. split; [exact H1|].
    unfold ticksRun in *. cbn [filter isSelect List.length]. rewrite H2. reflexivity.
Qed.

(** X9. The loop bound is [int(numDevices)]: a count from 2^63 up reads
    as a negative [int], the loop body never runs, and no device is
    selected, without any error. *)
Theorem count_beyond_int_selects_nothing w count w' :
  GetStringSlice env "devices" = [] ->
  gonvml.DeviceCount (nvml env) w = ((count, None), w') ->
  2 ^ 63 <= count < 2 ^ 64 ->
  selectDevices env w = (Ok [], [CallDeviceCount count None], w').
Proof.
  intros Hflag Hcount Hrange.
  unfold selectDevices. rewrite Hflag. cbn [List.length Nat.eqb].
  unfold bind, DeviceCount, call, ret. rewrite Hcount. cbn [fst snd app].
  assert (Hneg : int_of_uint count < 0).
  { unfold int_of_uint, uintModulus. cbv zeta.
    rewrite Z.mod_small by lia.
    destruct (count <? 2 ^ 63) eqn:E; [apply Z.ltb_lt in E; lia|lia]. }
  replace (Z.to_nat (int_of_uint count)) with 0%nat by lia.
  reflexivity.
Qed.

(** X10. Once the loop is running nothing a provider answers ends it: it
    never panics; it has returned exactly when one of its [select]s took
    [<-ctx.Done()]; and as long as none has, it has run every tick it was
    given time for. *)
Theorem loop_ends_only_by_cancellation fuel devices : forall w,
  (forall e, valueOf (monitor env fuel devices w) <> Panicked e) /\
  (valueOf (monitor env fuel devices w) = Returned <->
   existsb isCancel (traceOf (monitor env fuel devices w)) = true) /\
  (ticksRun (traceOf (monitor env fuel devices w)) <= fuel)%nat /\
  (valueOf (monitor env fuel devices w) = Running ->
   ticksRun (traceOf (monitor env fuel devices w)) = fuel).
Proof.
  induction fuel as [|fuel IH]; intros w.
  - cbn. repeat split; try discriminate; auto.
  - rewrite monitor_unfold. cbv zeta.
    destruct (tickBlock_facts _ _ (tick_block env devices w)) as (_ & Hq & _).
    destruct (selectDone env gpuPeriod _) as [[|] w2]; cbn [valueOf traceOf fst snd].
    + rewrite existsb_app, (isCancel_quiet _ Hq), ticksRun_app, (ticksRun_quiet _ Hq).
      cbn. repeat split; try discriminate; auto. lia.
    + destruct (IH w2) as (H1 & H2 & H3 & H4).
      change (Select gpuPeriod false :: traceOf (monitor env fuel devices w2))
        with ([Select gpuPeriod false] ++ traceOf (monitor env fuel devices w2)).
      rewrite !existsb_app, (isCancel_quiet _ Hq), !ticksRun_app, (ticksRun_quiet _ Hq).
      cbn [existsb isCancel orb]. change (ticksRun [Select gpuPeriod false]) with 1%nat.
      repeat split; try apply H2; try apply H1.
      * lia.
      * intros Hr. rewrite (H4 Hr). reflexivity.
Qed.

Lemma loopTrace_outcome devices o tr :
  loopTrace devices o tr -> o = Running \/ o = Returned.
Proof. induction 1; auto. Qed.

(** X11. [monitorGPU] panics only on its way to the loop: a run that ends
    in a panic has read no clock, made no metric read, never waited in
    [select] and emitted no snapshot. *)
Theorem panic_only_before_the_loop fuel w e :
  valueOf (monitorGPU env fuel w) = Panicked e ->
  forallb startupEvent (traceOf (monitorGPU env fuel w)) = true /\
  snapshots (traceOf (monitorGPU env fuel w)) = [].
Proof.
  intros Hp.
  destruct (monitorGPU_structure env fuel w)
    as (devices & pre & tloop & post & o & Htr & Hpre & _ & Hpost & Hloop & Hval).
  assert (Hnil : tloop = []).
  { destruct tloop as [|ev tl]; [reflexivity|].
    assert (Ho : valueOf (monitorGPU env fuel w) = o) by (apply Hval; discriminate).
    destruct (loopTrace_outcome _ _ _ Hloop); congruence. }
  subst tloop. rewrite Htr. cbn [app].
  assert (Hq : forallb startupEvent post = true).
  { destruct Hpost as [->|(err & ->)]; [reflexivity|]. apply shutdownTrace_quiet. }
  assert (Hall : forallb startupEvent (pre ++ post) = true)
    by (rewrite forallb_app, Hpre, Hq; reflexivity).
  split; [exact Hall|]. apply startup_snapshots. exact Hall.
Qed.

(** X12. A failed read of the PCIe link width, maximum generation or
    maximum width is logged with the format of [PcieGeneration]: the line
    carries the error but names another read. *)
Theorem pcie_link_failures_are_logged_as_PcieGeneration i w m d v e :
  loggedAsPcieGeneration m = true ->
  In (CallUint m d v (Some e)) (traceOf (devicePass env i w)) ->
  In (LogPrintf "PcieGeneration() error: %v" [AErr e]) (traceOf (devicePass env i w)).
Proof.
  intros Hm Hin.
  remember (devicePass env i w) as r eqn:Hr.
  exec_pass r Hr;
    in_trace Hin; try discriminate;
    inversion Hin; subst; try discriminate Hm; find_in.
Qed.

End LoopAndRun.

Lemma no_library_witness :
  gonvml.Initialize (nvml Hosts.noLibrary) 0%nat
  = (Some (NvmlError "could not load NVML library"), 1%nat) /\
  valueOf (monitorGPU Hosts.noLibrary 7 0%nat)
  = Panicked (NvmlError "could not load NVML library") /\
  List.length (traceOf (monitorGPU Hosts.noLibrary 7 0%nat)) = 2%nat.
Proof.
  split; [reflexivity|].
  rewrite (initialize_failure_panics_without_shutdown Hosts.noLibrary 7 0%nat
             (NvmlError "could not load NVML library") 1%nat eq_refl).
  split; reflexivity.
Defined.

Lemma initialisation_success_witness :
  valueOf (initialize (Fake.env [] 1000) [0; 1] 3%nat) = Ok tt /\
  List.length (traceOf (initialize (Fake.env [] 1000) [0; 1] 3%nat)) = 6%nat.
Proof.
  split; [reflexivity|].
  destruct (initialisation_configures_each_device_in_order
              (Fake.env [] 1000) [0; 1] 3%nat eq_refl) as (handles & _ & _ & H).
  exact H.
Defined.


Lemma reads_use_handle_witness :
  let ev := CallUint gonvml.Temperature (gonvml.Build_Device 4096) 55 None in
  In ev (traceOf (devicePass (Fake.env [] 1000) 0 0%nat)) /\
  eventDevice ev = Some (gonvml.Build_Device 4096) /\
  In (CallDeviceHandleByIndex 0 (gonvml.Build_Device 4096) None)
     (traceOf (devicePass (Fake.env [] 1000) 0 0%nat)).
Proof.
  intros ev.
  assert (Hin : In ev (traceOf (devicePass (Fake.env [] 1000) 0 0%nat))) by pick.
  split; [exact Hin|]. split; [reflexivity|].
  exact (reads_use_the_handle_of_their_pass (Fake.env [] 1000) 0 0%nat ev
           (gonvml.Build_Device 4096) Hin eq_refl).
Defined.

Lemma snapshot_time_witness :
  In (Fake.firstSnapshot (Fake.env [] 1000))
     (snapshots (traceOf (devicePass (Fake.env [] 1000) 0 0%nat))) /\
  TimeStamp (Fake.firstSnapshot (Fake.env [] 1000)) = 1700000000 /\
  exists d rest,
    traceOf (devicePass (Fake.env [] 1000) 0 0%nat)
    = TimeNow (TimeStamp (Fake.firstSnapshot (Fake.env [] 1000)))
        :: CallDeviceHandleByIndex 0 d None :: rest /\
    countb isClock rest = 0%nat.
Proof.
  assert (Hin : In (Fake.firstSnapshot (Fake.env [] 1000))
                   (snapshots (traceOf (devicePass (Fake.env [] 1000) 0 0%nat)))) by pick.
  split; [exact Hin|]. split; [reflexivity|].
  exact (snapshot_carries_the_time_its_pass_began (Fake.env [] 1000) 0 0%nat _ Hin).
Defined.

Lemma count_beyond_int_witness :
  GetStringSlice Hosts.hugeCount "devices" = [] /\
  gonvml.DeviceCount (nvml Hosts.hugeCount) 2%nat = ((2 ^ 63, None), 3%nat) /\
  2 ^ 63 <= 2 ^ 63 < 2 ^ 64 /\
  selectDevices Hosts.hugeCount 2%nat = (Ok [], [CallDeviceCount (2 ^ 63) None], 3%nat).
Proof.
  split; [reflexivity|]. split; [reflexivity|]. split; [lia|].
  exact (count_beyond_int_selects_nothing Hosts.hugeCount 2%nat (2 ^ 63) 3%nat
           eq_refl eq_refl ltac:(lia)).
Defined.

Lemma panic_witness :
  valueOf (monitorGPU Fake.computeModeFails 7 0%nat) = Panicked Fake.notSupported /\
  forallb startupEvent (traceOf (monitorGPU Fake.computeModeFails 7 0%nat)) = true.
Proof.
  assert (H : valueOf (monitorGPU Fake.computeModeFails 7 0%nat)
              = Panicked Fake.notSupported) by reflexivity.
  split; [exact H|].
  exact (proj1 (panic_only_before_the_loop Fake.computeModeFails 7 0%nat _ H)).
Defined.

Lemma pcie_log_witness :
  loggedAsPcieGeneration gonvml.PcieWidth = true /\
  In (CallUint gonvml.PcieWidth (gonvml.Build_Device 4096) 0 (Some Fake.notSupported))
     (traceOf (devicePass Hosts.pcieWidthFails 0 0%nat)) /\
  In (LogPrintf "PcieGeneration() error: %v" [AErr Fake.notSupported])
     (traceOf (devicePass Hosts.pcieWidthFails 0 0%nat)).
Proof.
  assert (Hin : In (CallUint gonvml.PcieWidth (gonvml.Build_Device 4096) 0
                             (Some Fake.notSupported))
                   (traceOf (devicePass Hosts.pcieWidthFails 0 0%nat))) by pick.
  split; [reflexivity|]. split; [exact Hin|].
  exact (pcie_link_failures_are_logged_as_PcieGeneration Hosts.pcieWidthFails 0 0%nat
           gonvml.PcieWidth _ 0 Fake.notSupported eq_refl Hin).
Defined.

Lemma pass_calls_witness :
  snapshots (traceOf (devicePass (Fake.env [] 1000) 0 0%nat)) <> [] /\
  countb isProviderCall (traceOf (devicePass (Fake.env [] 1000) 0 0%nat)) = 25%nat.
Proof.
  assert (H : snapshots (traceOf (devicePass (Fake.env [] 1000) 0 0%nat)) <> [])
    by (vm_compute; discriminate).
  split; [exact H|].
  exact (proj1 (pass_makes_a_bounded_number_of_calls (Fake.env [] 1000) 0 0%nat) H).
Defined.

Lemma loop_runs_witness :
  valueOf (monitor (Fake.env [] 1000) 2 [0] 0%nat) = Running /\
  ticksRun (traceOf (monitor (Fake.env [] 1000) 2 [0] 0%nat)) = 2%nat.
Proof.
  assert (H : valueOf (monitor (Fake.env [] 1000) 2 [0] 0%nat) = Running) by reflexivity.
  split; [exact H|].
  destruct (loop_ends_only_by_cancellation (Fake.env [] 1000) 2 [0] 0%nat)
    as (_ & _ & _ & Hrun).
  exact (Hrun H).
Defined.
